(** * The Dependency Inversion sample

    Shallow embedding of the classes of the Dependency Inversion sample
    and of the parts of the JavaScript runtime they rely on.

    The first part is [class DIContainer], the "simple example" container:
    the values that can be registered, [ToBoolean] (the test behind
    [if (!service)]), the built-in [Map] and [throw new Error(...)].

    The second part is the services around it (the databases, the email,
    notification and payment services, [UserService], [OrderService]) and
    [demonstrateDIP], over a heap of instances, the console and the two
    things the host decides: [Math.random] and the clock. *)

From Stdlib Require Import ZArith String List Permutation.
From Stdlib Require Import Floats.SpecFloat.
From stdpp Require Import base option list strings gmap fin_maps.

Local Open Scope string_scope.

(** ** JavaScript values *)

Module JS.

(** Heap addresses: two object values are the same instance exactly when
    their addresses are equal. *)
Definition loc := positive.

(** The language's value types.  Numbers are IEEE 754 binary64 data
    (signed zeros, infinities, NaN, finite numbers); every object, array,
    function or class instance is a reference. *)
Inductive Value : Type :=
| VUndefined
| VNull
| VBoolean (b : bool)
| VNumber (x : spec_float)
| VBigInt (z : Z)
| VString (s : string)
| VSymbol (id : positive)
| VObject (l : loc).

(** [ToBoolean]: the falsy values are [undefined], [null], [false],
    [+0], [-0], [NaN], [0n] and the empty string. *)
Definition ToBoolean (v : Value) : bool :=
  match v with
  | VUndefined => false
  | VNull => false
  | VBoolean b => b
  | VNumber x =>
      match x with
      | S754_zero _ => false
      | S754_nan => false
      | S754_infinity _ => true
      | S754_finite _ _ _ => true
      end
  | VBigInt z => negb (Z.eqb z 0)
  | VString s => negb (String.eqb s "")
  | VSymbol _ => true
  | VObject _ => true
  end.

(** An [Error] object, as far as callers can tell errors apart: its
    message. *)
Record Error : Type := new_Error { message : string }.

(** How a call ends: it returns a value or it throws. *)
Inductive Completion (A : Type) : Type :=
| Normal (a : A)
| Throw (e : Error).
Arguments Normal {A} a.
Arguments Throw {A} e.

(** The built-in [Map<string, any>].  On string keys the key comparison
    of [Map] is string equality, [set] inserts or replaces and [get]
    answers [undefined] for a key that has no entry. *)
Definition Map_set (m : gmap string Value) (key : string) (value : Value)
  : gmap string Value :=
  <[key := value]> m.

Definition Map_get (m : gmap string Value) (key : string) : Value :=
  default VUndefined (m !! key).

Definition Map_has (m : gmap string Value) (key : string) : bool :=
  bool_decide (is_Some (m !! key)).

End JS.

Import JS.

(** ** The container *)

(** [private services = new Map<string, any>()] is the only field. *)
Record DIContainer : Type := mkDIContainer { services : gmap string Value }.

(** [new DIContainer()] *)
Definition new_DIContainer : DIContainer := mkDIContainer ∅.

(** Methods run against the receiver: a computation takes the container
    and gives back how it ended together with the container afterwards. *)
Definition Method (A : Type) : Type := DIContainer → Completion A * DIContainer.

Global Instance Method_ret : MRet Method := λ A a this, (Normal a, this).

Global Instance Method_bind : MBind Method := λ A B f m this,
  match m this with
  | (Normal a, this') => f a this'
  | (Throw e, this') => (Throw e, this')
  end.

Definition throw {A : Type} (e : Error) : Method A := λ this, (Throw e, this).

(** Access to the field. *)
Definition services_set (name : string) (service : Value) : Method unit :=
  λ this, (Normal tt, mkDIContainer (Map_set (services this) name service)).

Definition services_get (name : string) : Method Value :=
  λ this, (Normal (Map_get (services this) name), this).

(** The template literal [`Service ${name} not found`]. *)
Definition not_found_message (name : string) : string :=
  "Service " +:+ name +:+ " not found".

(** [register<T>(name: string, service: T): void] *)
Definition register (name : string) (service : Value) : Method unit :=
  services_set name service.

(** [get<T>(name: string): T] *)
Definition get (name : string) : Method Value :=
  service ← services_get name;
  if negb (ToBoolean service)
  then throw (new_Error (not_found_message name))
  else mret service.

(** The outcome of a computation and the container it leaves. *)
Definition outcome {A : Type} (m : Method A) (this : DIContainer) : Completion A :=
  fst (m this).

Definition after {A : Type} (m : Method A) (this : DIContainer) : DIContainer :=
  snd (m this).

(** ** Callers *)

(** A call made on the container by some caller. *)
Inductive Call : Type :=
| CallRegister (name : string) (service : Value)
| CallGet (name : string).

(** The value of the call expression; a [void] method yields [undefined]. *)
Definition call (c : Call) : Method Value :=
  match c with
  | CallRegister name service => register name service;; mret VUndefined
  | CallGet name => get name
  end.

(** A caller that makes the calls one after the other and survives the
    ones that throw: the container after the whole history. *)
Definition history (cs : list Call) (this : DIContainer) : DIContainer :=
  fold_left (λ c op, after (call op) c) cs this.

(** The keys a history registers, and the value a key was last registered
    with. *)
Fixpoint registered_keys (cs : list Call) : list string :=
  match cs with
  | [] => []
  | CallRegister name _ :: cs' => name :: registered_keys cs'
  | CallGet _ :: cs' => registered_keys cs'
  end.

Fixpoint last_registered (name : string) (cs : list Call) : option Value :=
  match cs with
  | [] => None
  | CallRegister n v :: cs' =>
      match last_registered name cs' with
      | Some w => Some w
      | None => if decide (n = name) then Some v else None
      end
  | CallGet _ :: cs' => last_registered name cs'
  end.

(** Registering a list of key/value pairs in the order of the list. *)
Fixpoint register_all (kvs : list (string * Value)) : Method unit :=
  match kvs with
  | [] => mret tt
  | (k, v) :: kvs' => register k v;; register_all kvs'
  end.

(** A caller that queries a list of keys in order, catching each failure,
    and records what every query gave. *)
Fixpoint query_all (ks : list string) : Method (list (string * Completion Value)) :=
  match ks with
  | [] => mret []
  | k :: ks' =>
      λ this,
        let '(r, this') := get k this in
        (rs ← query_all ks'; mret ((k, r) :: rs)) this'
  end.

(** The same caller for arbitrary calls: what each call of a history gave. *)
Fixpoint trace (cs : list Call) (this : DIContainer) : list (Completion Value) :=
  match cs with
  | [] => []
  | c :: cs' => outcome (call c) this :: trace cs' (after (call c) this)
  end.

(** The registry invariant, relative to the calls made so far: a key has
    an entry exactly when it was registered, and the entry is the value of
    its latest registration. *)
Definition registry_inv (cs : list Call) (this : DIContainer) : Prop :=
  ∀ k : string, services this !! k = last_registered k cs.

(** ** The services of the sample

    The classes around the container: the three databases, the email
    services, the notification services, the payment processors,
    [UserService] and [OrderService].  Instances live in a heap and are
    passed around by reference; a method is found by the class of its
    receiver.  Object and array literals that the code only builds, passes
    on and reads (never mutates, never compares by identity) are modelled
    by their contents. *)

(** Plain data: what flows through the parameters typed [any]. *)
#[warnings="-register-all"] Inductive Data : Type :=
| DUndefined
| DNull
| DBoolean (b : bool)
| DNumber (x : spec_float)
| DString (s : string)
| DDate (t : Z)
| DArray (elements : list Data)
| DObject (fields : gmap string Data).

(** [ToBoolean] on plain data: every object, array and date is truthy. *)
Definition truthy (d : Data) : bool :=
  match d with
  | DUndefined => false
  | DNull => false
  | DBoolean b => b
  | DNumber x =>
      match x with
      | S754_zero _ => false
      | S754_nan => false
      | S754_infinity _ => true
      | S754_finite _ _ _ => true
      end
  | DString s => negb (String.eqb s "")
  | DDate _ => true
  | DArray _ => true
  | DObject _ => true
  end.

(** What can be thrown: an [Error] made by the code, or the [TypeError] of
    the runtime (reading a property of [undefined] or [null], calling what
    is not a function, converting an object that has no usable
    [toString]). *)
Inductive Exception : Type :=
| ErrorObject (e : Error)
| TypeError.

Inductive Result (A : Type) : Type :=
| Ok (a : A)
| Raise (x : Exception).
Arguments Ok {A} a.
Arguments Raise {A} x.

Global Instance Result_ret : MRet Result := λ A a, Ok a.

Global Instance Result_bind : MBind Result := λ A B f r,
  match r with
  | Ok a => f a
  | Raise x => Raise x
  end.

(** What the host provides and the code cannot see into: the decimal
    string of a number, the string of a date, the string
    [Math.random().toString(36)] of the n-th call of [Math.random] and the
    time of the n-th [new Date()]. *)
Class Host : Type := {
  Number_toString : spec_float → string;
  Date_toString : Z → string;
  random36 : nat → string;
  clock : nat → Z
}.

Definition newline : string := String (Ascii.ascii_of_nat 10) "".

(** [array.join(separator)] on strings. *)
Fixpoint join (separator : string) (l : list string) : string :=
  match l with
  | [] => ""
  | [s] => s
  | s :: l' => s +:+ separator +:+ join separator l'
  end.

(** [ToString], as a template literal applies it.  A plain object answers
    ["[object Object]"] unless it has a property of its own called
    [toString]: that one is not a function, [valueOf] then gives back the
    object, and the conversion throws.  An array joins its elements with
    commas, [undefined] and [null] elements giving the empty string. *)
Fixpoint ToString `{Host} (d : Data) : Result string :=
  match d with
  | DUndefined => Ok "undefined"
  | DNull => Ok "null"
  | DBoolean b => Ok (if b then "true" else "false")
  | DNumber x => Ok (Number_toString x)
  | DString s => Ok s
  | DDate t => Ok (Date_toString t)
  | DArray elements =>
      strings ← (fix each (l : list Data) : Result (list string) :=
                   match l with
                   | [] => Ok []
                   | e :: l' =>
                       s ← match e with
                           | DUndefined | DNull => Ok ""
                           | _ => ToString e
                           end;
                       ss ← each l';
                       Ok (s :: ss)
                   end) elements;
      Ok (join "," strings)
  | DObject fields =>
      if bool_decide (is_Some (fields !! "toString"))
      then Raise TypeError
      else Ok "[object Object]"
  end.

(** Reading a property the built-in prototypes do not define (the code
    reads [total], [userId], [items], [name], [price], [id] and [email]
    this way): it throws on [undefined] and [null], a plain object answers
    with its own property or [undefined], anything else with
    [undefined]. *)
Definition get_prop (d : Data) (name : string) : Result Data :=
  match d with
  | DUndefined => Raise TypeError
  | DNull => Raise TypeError
  | DObject fields => Ok (default DUndefined (fields !! name))
  | _ => Ok DUndefined
  end.

(** [value.map(f)]: only an array has a [map] to call. *)
Definition Array_map {B : Type} (value : Data) (f : Data → Result B)
  : Result (list B) :=
  match value with
  | DArray elements => mapM f elements
  | _ => Raise TypeError
  end.

(** Numbers add as IEEE 754 binary64. *)
Definition Number_add (x y : spec_float) : spec_float := SFadd 53 1024 x y.

(** *** Typed records of the sample *)

(** [interface User]. *)
Record User : Type := mkUser {
  user_id : option string;
  user_name : string;
  user_email : string;
  user_createdAt : option Z
}.

(** An entry of [MockEmailService.sentEmails]. *)
Record Email : Type := mkEmail { to : string; subject : string; body : string }.

(** [interface PaymentResult] and [interface RefundResult]. *)
Record PaymentResult : Type := mkPaymentResult {
  payment_success : bool;
  transactionId : string;
  payment_message : string
}.

Record RefundResult : Type := mkRefundResult {
  refund_success : bool;
  refundId : string;
  refund_message : string
}.

(** An element of [Order.items]. *)
Record Item : Type := mkItem { item_name : string; item_price : spec_float }.

Definition Item_object (i : Item) : Data :=
  DObject {[ "name" := DString (item_name i); "price" := DNumber (item_price i) ]}.

(** *** Instances, console and state *)

(** The instances of the classes, with their fields. *)
Inductive Instance : Type :=
| MySQLDatabase (connection : Data)
| MongoDatabase (connection : Data)
| PostgreSQLDatabase (connection : Data)
| SMTPEmailService
| SendGridEmailService
| AWSEmailService
| MockEmailService (sentEmails : list Email)
| NotificationService (emailService : loc)
| ExtendedNotificationService (emailService : loc)
| StripePaymentProcessor
| PayPalPaymentProcessor
| MockPaymentProcessor (transactions : list PaymentResult) (refunds : list RefundResult)
| UserService (database : loc)
| OrderService (database paymentProcessor notificationService : loc).

Inductive ConsoleArg : Type :=
| CString (s : string)
| CData (d : Data)
| CException (x : Exception).

Inductive ConsoleLevel : Type := LevelLog | LevelError.

(** The heap of instances, what was written to the console (oldest
    first) and how often [Math.random] and [new Date()] were called. *)
Record State : Type := mkState {
  heap : gmap loc Instance;
  console : list (ConsoleLevel * list ConsoleArg);
  random_calls : nat;
  date_calls : nat
}.

(** An awaited call: what it does to the state by the time its promise
    has settled, a rejected promise being a throw at the [await]. *)
Definition Async (A : Type) : Type := State → Result A * State.

Global Instance Async_ret : MRet Async := λ A a st, (Ok a, st).

Global Instance Async_bind : MBind Async := λ A B f m st,
  match m st with
  | (Ok a, st') => f a st'
  | (Raise x, st') => (Raise x, st')
  end.

Definition raise {A : Type} (x : Exception) : Async A := λ st, (Raise x, st).

Definition lift {A : Type} (r : Result A) : Async A := λ st, (r, st).

(** [try { body } catch (error) { handler }] *)
Definition try_catch {A : Type} (body : Async A) (handler : Exception → Async A)
  : Async A :=
  λ st,
    match body st with
    | (Ok a, st') => (Ok a, st')
    | (Raise x, st') => handler x st'
    end.

Definition console_log (args : list ConsoleArg) : Async unit :=
  λ st, (Ok tt, mkState (heap st) (console st ++ [(LevelLog, args)])
                  (random_calls st) (date_calls st)).

Definition console_error (args : list ConsoleArg) : Async unit :=
  λ st, (Ok tt, mkState (heap st) (console st ++ [(LevelError, args)])
                  (random_calls st) (date_calls st)).

(** [Math.random().toString(36)] *)
Definition Math_random_toString36 `{Host} : Async string :=
  λ st, (Ok (random36 (random_calls st)),
         mkState (heap st) (console st) (S (random_calls st)) (date_calls st)).

(** [new Date()] *)
Definition new_Date `{Host} : Async Data :=
  λ st, (Ok (DDate (clock (date_calls st))),
         mkState (heap st) (console st) (random_calls st) (S (date_calls st))).

(** [await new Promise((resolve) => setTimeout(resolve, ms))]: time
    passes, nothing else happens. *)
Definition delay (ms : nat) : Async unit := mret tt.

(** The instance a reference points to, and writing an instance's
    fields. *)
Definition instance_at (l : loc) : Async (option Instance) :=
  λ st, (Ok (heap st !! l), st).

Definition store (l : loc) (i : Instance) : Async unit :=
  λ st, (Ok tt, mkState (<[l := i]> (heap st)) (console st)
                  (random_calls st) (date_calls st)).

(** *** The databases *)

Definition MySQLDatabase_connect (this : loc) : Async unit :=
  console_log [CString "Connecting to MySQL database"];;
  store this (MySQLDatabase
                (DObject {[ "type" := DString "mysql"; "connected" := DBoolean true ]})).

Definition MySQLDatabase_disconnect (this : loc) : Async unit :=
  console_log [CString "Disconnecting from MySQL database"];;
  store this (MySQLDatabase DNull).

Definition MySQLDatabase_save `{Host} (this : loc) (collection : string) (data : Data)
  : Async string :=
  console_log [CString ("Saving to MySQL table " +:+ collection +:+ ":"); CData data];;
  id ← Math_random_toString36;
  mret id.

Definition MySQLDatabase_findById (this : loc) (collection : string) (id : Data)
  : Async Data :=
  console_log [CString ("Finding in MySQL table " +:+ collection +:+ " with id:");
               CData id];;
  mret (DObject {[ "id" := id; "table" := DString collection ]}).

Definition MySQLDatabase_update (this : loc) (collection id : string) (data : Data)
  : Async unit :=
  console_log [CString ("Updating MySQL table " +:+ collection +:+ " id " +:+ id +:+ ":");
               CData data].

Definition MySQLDatabase_delete (this : loc) (collection id : string) : Async unit :=
  console_log [CString ("Deleting from MySQL table " +:+ collection +:+ " id:");
               CData (DString id)].

Definition MongoDatabase_connect (this : loc) : Async unit :=
  console_log [CString "Connecting to MongoDB database"];;
  store this (MongoDatabase
                (DObject {[ "type" := DString "mongodb"; "connected" := DBoolean true ]})).

Definition MongoDatabase_disconnect (this : loc) : Async unit :=
  console_log [CString "Disconnecting from MongoDB database"];;
  store this (MongoDatabase DNull).

Definition MongoDatabase_save `{Host} (this : loc) (collection : string) (data : Data)
  : Async string :=
  console_log [CString ("Saving to MongoDB collection " +:+ collection +:+ ":");
               CData data];;
  id ← Math_random_toString36;
  mret id.

Definition MongoDatabase_findById (this : loc) (collection : string) (id : Data)
  : Async Data :=
  console_log [CString ("Finding in MongoDB collection " +:+ collection +:+ " with id:");
               CData id];;
  mret (DObject {[ "_id" := id; "collection" := DString collection ]}).

Definition MongoDatabase_update (this : loc) (collection id : string) (data : Data)
  : Async unit :=
  console_log [CString ("Updating MongoDB collection " +:+ collection +:+ " id "
                        +:+ id +:+ ":");
               CData data].

Definition MongoDatabase_delete (this : loc) (collection id : string) : Async unit :=
  console_log [CString ("Deleting from MongoDB collection " +:+ collection +:+ " id:");
               CData (DString id)].

Definition PostgreSQLDatabase_connect (this : loc) : Async unit :=
  console_log [CString "Connecting to PostgreSQL database"];;
  store this (PostgreSQLDatabase
                (DObject {[ "type" := DString "postgresql"; "connected" := DBoolean true ]})).

Definition PostgreSQLDatabase_disconnect (this : loc) : Async unit :=
  console_log [CString "Disconnecting from PostgreSQL database"];;
  store this (PostgreSQLDatabase DNull).

Definition PostgreSQLDatabase_save `{Host} (this : loc) (collection : string) (data : Data)
  : Async string :=
  console_log [CString ("Saving to PostgreSQL table " +:+ collection +:+ ":");
               CData data];;
  id ← Math_random_toString36;
  mret id.

Definition PostgreSQLDatabase_findById (this : loc) (collection : string) (id : Data)
  : Async Data :=
  console_log [CString ("Finding in PostgreSQL table " +:+ collection +:+ " with id:");
               CData id];;
  mret (DObject {[ "id" := id; "table" := DString collection ]}).

Definition PostgreSQLDatabase_update (this : loc) (collection id : string) (data : Data)
  : Async unit :=
  console_log [CString ("Updating PostgreSQL table " +:+ collection +:+ " id "
                        +:+ id +:+ ":");
               CData data].

Definition PostgreSQLDatabase_delete (this : loc) (collection id : string) : Async unit :=
  console_log [CString ("Deleting from PostgreSQL table " +:+ collection +:+ " id:");
               CData (DString id)].

(** [interface Database]: a call through a reference runs the method of
    the receiver's class; a receiver without the method makes the call
    throw. *)
Definition Database_connect (db : loc) : Async unit :=
  i ← instance_at db;
  match i with
  | Some (MySQLDatabase _) => MySQLDatabase_connect db
  | Some (MongoDatabase _) => MongoDatabase_connect db
  | Some (PostgreSQLDatabase _) => PostgreSQLDatabase_connect db
  | _ => raise TypeError
  end.

Definition Database_disconnect (db : loc) : Async unit :=
  i ← instance_at db;
  match i with
  | Some (MySQLDatabase _) => MySQLDatabase_disconnect db
  | Some (MongoDatabase _) => MongoDatabase_disconnect db
  | Some (PostgreSQLDatabase _) => PostgreSQLDatabase_disconnect db
  | _ => raise TypeError
  end.

Definition Database_save `{Host} (db : loc) (collection : string) (data : Data)
  : Async string :=
  i ← instance_at db;
  match i with
  | Some (MySQLDatabase _) => MySQLDatabase_save db collection data
  | Some (MongoDatabase _) => MongoDatabase_save db collection data
  | Some (PostgreSQLDatabase _) => PostgreSQLDatabase_save db collection data
  | _ => raise TypeError
  end.

Definition Database_findById (db : loc) (collection : string) (id : Data) : Async Data :=
  i ← instance_at db;
  match i with
  | Some (MySQLDatabase _) => MySQLDatabase_findById db collection id
  | Some (MongoDatabase _) => MongoDatabase_findById db collection id
  | Some (PostgreSQLDatabase _) => PostgreSQLDatabase_findById db collection id
  | _ => raise TypeError
  end.

Definition Database_update (db : loc) (collection id : string) (data : Data) : Async unit :=
  i ← instance_at db;
  match i with
  | Some (MySQLDatabase _) => MySQLDatabase_update db collection id data
  | Some (MongoDatabase _) => MongoDatabase_update db collection id data
  | Some (PostgreSQLDatabase _) => PostgreSQLDatabase_update db collection id data
  | _ => raise TypeError
  end.

Definition Database_delete (db : loc) (collection id : string) : Async unit :=
  i ← instance_at db;
  match i with
  | Some (MySQLDatabase _) => MySQLDatabase_delete db collection id
  | Some (MongoDatabase _) => MongoDatabase_delete db collection id
  | Some (PostgreSQLDatabase _) => PostgreSQLDatabase_delete db collection id
  | _ => raise TypeError
  end.

(** *** UserService *)

(** [this.database] *)
Definition UserService_database (this : loc) : Async loc :=
  i ← instance_at this;
  match i with
  | Some (UserService db) => mret db
  | _ => raise TypeError
  end.

(** [createUser(userData)]; [userData] is the object's own properties. *)
Definition UserService_createUser `{Host} (this : loc) (userData : gmap string Data)
  : Async Data :=
  db ← UserService_database this;
  Database_connect db;;
  now ← new_Date;
  let user := <["createdAt" := now]> userData in
  db ← UserService_database this;
  id ← Database_save db "users" (DObject user);
  db ← UserService_database this;
  Database_disconnect db;;
  mret (DObject (<["id" := DString id]> user)).

Definition UserService_getUser (this : loc) (id : string) : Async Data :=
  db ← UserService_database this;
  Database_connect db;;
  db ← UserService_database this;
  userData ← Database_findById db "users" (DString id);
  db ← UserService_database this;
  Database_disconnect db;;
  mret userData.

Definition UserService_updateUser (this : loc) (id : string) (userData : gmap string Data)
  : Async unit :=
  db ← UserService_database this;
  Database_connect db;;
  db ← UserService_database this;
  Database_update db "users" id (DObject userData);;
  db ← UserService_database this;
  Database_disconnect db.

Definition UserService_deleteUser (this : loc) (id : string) : Async unit :=
  db ← UserService_database this;
  Database_connect db;;
  db ← UserService_database this;
  Database_delete db "users" id;;
  db ← UserService_database this;
  Database_disconnect db.

(** *** The email services *)

Definition SMTPEmailService_sendEmail (this : loc) (to subject body : string)
  : Async unit :=
  console_log [CString ("Sending email via SMTP to " +:+ to +:+ ": " +:+ subject)];;
  delay 100.

Definition SendGridEmailService_sendEmail (this : loc) (to subject body : string)
  : Async unit :=
  console_log [CString ("Sending email via SendGrid to " +:+ to +:+ ": " +:+ subject)];;
  delay 100.

Definition AWSEmailService_sendEmail (this : loc) (to subject body : string)
  : Async unit :=
  console_log [CString ("Sending email via AWS SES to " +:+ to +:+ ": " +:+ subject)];;
  delay 100.

Definition MockEmailService_sendEmail (this : loc) (to subject body : string)
  : Async unit :=
  console_log [CString ("Mock: Email would be sent to " +:+ to +:+ ": " +:+ subject)];;
  i ← instance_at this;
  match i with
  | Some (MockEmailService sentEmails) =>
      store this (MockEmailService (sentEmails ++ [mkEmail to subject body]))
  | _ => raise TypeError
  end.

Definition MockEmailService_getSentEmails (this : loc) : Async (list Email) :=
  i ← instance_at this;
  match i with
  | Some (MockEmailService sentEmails) => mret sentEmails
  | _ => raise TypeError
  end.

Definition MockEmailService_clearSentEmails (this : loc) : Async unit :=
  store this (MockEmailService []).

(** The private [sendEmail] of [ExtendedNotificationService]: it builds
    [tempUser], which nothing reads, and writes one line.  [private] is a
    matter of the type checker only: at run time the method is there for
    whoever holds the instance. *)
Definition ExtendedNotificationService_sendEmail `{Host} (this : loc) (to : Data)
    (subject body : string) : Async unit :=
  let tempUser :=
    DObject {[ "id" := DString "1"; "name" := DString "temp"; "email" := to ]} in
  recipient ← lift (ToString to);
  console_log [CString ("Order notification: " +:+ subject +:+ " to " +:+ recipient)].

(** [emailService.sendEmail(to, subject, body)]: the call runs the
    [sendEmail] of the receiver's class, whichever class that is. *)
Definition EmailService_sendEmail `{Host} (service : loc) (to subject body : string)
  : Async unit :=
  i ← instance_at service;
  match i with
  | Some SMTPEmailService => SMTPEmailService_sendEmail service to subject body
  | Some SendGridEmailService => SendGridEmailService_sendEmail service to subject body
  | Some AWSEmailService => AWSEmailService_sendEmail service to subject body
  | Some (MockEmailService _) => MockEmailService_sendEmail service to subject body
  | Some (ExtendedNotificationService _) =>
      ExtendedNotificationService_sendEmail service (DString to) subject body
  | _ => raise TypeError
  end.

(** *** The notification services *)

(** [this.emailService], in the base class and in the class that extends
    it. *)
Definition NotificationService_emailService (this : loc) : Async loc :=
  i ← instance_at this;
  match i with
  | Some (NotificationService emailService) => mret emailService
  | Some (ExtendedNotificationService emailService) => mret emailService
  | _ => raise TypeError
  end.

Definition NotificationService_sendWelcomeNotification `{Host} (this : loc) (user : User)
  : Async unit :=
  let subject := "Welcome to our platform!" in
  let body := "Hello " +:+ user_name user +:+ ", welcome to our amazing platform!" in
  emailService ← NotificationService_emailService this;
  EmailService_sendEmail emailService (user_email user) subject body.

Definition NotificationService_sendPasswordResetNotification `{Host} (this : loc)
    (user : User)
    (resetToken : string) : Async unit :=
  let subject := "Password Reset Request" in
  let body := "Hi " +:+ user_name user
              +:+ ", click here to reset your password: /reset?token=" +:+ resetToken in
  emailService ← NotificationService_emailService this;
  EmailService_sendEmail emailService (user_email user) subject body.

(** [sendOrderConfirmation(user, order)]; [OrderService] calls it with
    what [findById] gave, so both arguments are plain data. *)
Definition ExtendedNotificationService_sendOrderConfirmation `{Host} (this : loc)
    (user order : Data) : Async unit :=
  let subject := "Order Confirmation" in
  itemsList ← lift (items ← get_prop order "items";
                    lines ← Array_map items (λ item,
                              name ← get_prop item "name";
                              name_string ← ToString name;
                              price ← get_prop item "price";
                              price_string ← ToString price;
                              mret ("- " +:+ name_string +:+ ": $" +:+ price_string));
                    mret (join newline lines));
  body ← lift (name ← get_prop user "name";
               name_string ← ToString name;
               id ← get_prop order "id";
               id_string ← ToString id;
               total ← get_prop order "total";
               total_string ← ToString total;
               mret ("Hi " +:+ name_string +:+ "," +:+ newline +:+ newline
                     +:+ "Your order " +:+ id_string +:+ " has been confirmed!"
                     +:+ newline +:+ newline +:+ "Items:" +:+ newline +:+ itemsList
                     +:+ newline +:+ newline +:+ "Total: $" +:+ total_string
                     +:+ newline +:+ newline +:+ "Thank you for your purchase!"));
  email ← lift (get_prop user "email");
  ExtendedNotificationService_sendEmail this email subject body.

(** [notificationService.sendOrderConfirmation(user, order)]: only the
    extended class has the method. *)
Definition NotificationService_sendOrderConfirmation `{Host} (service : loc)
    (user order : Data) : Async unit :=
  i ← instance_at service;
  match i with
  | Some (ExtendedNotificationService _) =>
      ExtendedNotificationService_sendOrderConfirmation service user order
  | _ => raise TypeError
  end.

(** *** The payment processors *)

(** [amount ? "$" + amount : "full amount"] *)
Definition refund_amount_text `{Host} (amount : option spec_float) : string :=
  match amount with
  | Some x => if truthy (DNumber x) then "$" +:+ Number_toString x else "full amount"
  | None => "full amount"
  end.

Definition StripePaymentProcessor_processPayment `{Host} (this : loc) (amount : Data)
    (currency cardToken : string) : Async PaymentResult :=
  amount_string ← lift (ToString amount);
  console_log [CString ("Processing $" +:+ amount_string +:+ " " +:+ currency
                        +:+ " payment via Stripe")];;
  delay 200;;
  token ← Math_random_toString36;
  mret (mkPaymentResult true ("stripe_" +:+ token)
          "Payment processed successfully via Stripe").

Definition StripePaymentProcessor_refundPayment `{Host} (this : loc)
    (transactionId : string) (amount : option spec_float) : Async RefundResult :=
  console_log [CString ("Refunding " +:+ refund_amount_text amount
                        +:+ " for transaction " +:+ transactionId +:+ " via Stripe")];;
  delay 200;;
  token ← Math_random_toString36;
  mret (mkRefundResult true ("stripe_refund_" +:+ token)
          "Refund processed successfully via Stripe").

Definition PayPalPaymentProcessor_processPayment `{Host} (this : loc) (amount : Data)
    (currency cardToken : string) : Async PaymentResult :=
  amount_string ← lift (ToString amount);
  console_log [CString ("Processing $" +:+ amount_string +:+ " " +:+ currency
                        +:+ " payment via PayPal")];;
  delay 300;;
  token ← Math_random_toString36;
  mret (mkPaymentResult true ("paypal_" +:+ token)
          "Payment processed successfully via PayPal").

Definition PayPalPaymentProcessor_refundPayment `{Host} (this : loc)
    (transactionId : string) (amount : option spec_float) : Async RefundResult :=
  console_log [CString ("Refunding " +:+ refund_amount_text amount
                        +:+ " for transaction " +:+ transactionId +:+ " via PayPal")];;
  delay 300;;
  token ← Math_random_toString36;
  mret (mkRefundResult true ("paypal_refund_" +:+ token)
          "Refund processed successfully via PayPal").

Definition MockPaymentProcessor_processPayment `{Host} (this : loc) (amount : Data)
    (currency cardToken : string) : Async PaymentResult :=
  amount_string ← lift (ToString amount);
  console_log [CString ("Mock: Processing $" +:+ amount_string +:+ " " +:+ currency
                        +:+ " payment")];;
  token ← Math_random_toString36;
  let result := mkPaymentResult true ("mock_" +:+ token) "Mock payment processed" in
  i ← instance_at this;
  match i with
  | Some (MockPaymentProcessor transactions refunds) =>
      store this (MockPaymentProcessor (transactions ++ [result]) refunds);;
      mret result
  | _ => raise TypeError
  end.

Definition MockPaymentProcessor_refundPayment `{Host} (this : loc)
    (transactionId : string) (amount : option spec_float) : Async RefundResult :=
  console_log [CString ("Mock: Refunding " +:+ refund_amount_text amount
                        +:+ " for " +:+ transactionId)];;
  token ← Math_random_toString36;
  let result := mkRefundResult true ("mock_refund_" +:+ token) "Mock refund processed" in
  i ← instance_at this;
  match i with
  | Some (MockPaymentProcessor transactions refunds) =>
      store this (MockPaymentProcessor transactions (refunds ++ [result]));;
      mret result
  | _ => raise TypeError
  end.

Definition MockPaymentProcessor_getTransactions (this : loc) : Async (list PaymentResult) :=
  i ← instance_at this;
  match i with
  | Some (MockPaymentProcessor transactions _) => mret transactions
  | _ => raise TypeError
  end.

Definition MockPaymentProcessor_getRefunds (this : loc) : Async (list RefundResult) :=
  i ← instance_at this;
  match i with
  | Some (MockPaymentProcessor _ refunds) => mret refunds
  | _ => raise TypeError
  end.

(** [interface PaymentProcessor] *)
Definition PaymentProcessor_processPayment `{Host} (processor : loc) (amount : Data)
    (currency cardToken : string) : Async PaymentResult :=
  i ← instance_at processor;
  match i with
  | Some StripePaymentProcessor =>
      StripePaymentProcessor_processPayment processor amount currency cardToken
  | Some PayPalPaymentProcessor =>
      PayPalPaymentProcessor_processPayment processor amount currency cardToken
  | Some (MockPaymentProcessor _ _) =>
      MockPaymentProcessor_processPayment processor amount currency cardToken
  | _ => raise TypeError
  end.

Definition PaymentProcessor_refundPayment `{Host} (processor : loc)
    (transactionId : string) (amount : option spec_float) : Async RefundResult :=
  i ← instance_at processor;
  match i with
  | Some StripePaymentProcessor =>
      StripePaymentProcessor_refundPayment processor transactionId amount
  | Some PayPalPaymentProcessor =>
      PayPalPaymentProcessor_refundPayment processor transactionId amount
  | Some (MockPaymentProcessor _ _) =>
      MockPaymentProcessor_refundPayment processor transactionId amount
  | _ => raise TypeError
  end.

(** *** OrderService *)

(** The three fields; a receiver of another class has none of them, and
    the call made on the field then throws. *)
Definition OrderService_database (this : loc) : Async loc :=
  i ← instance_at this;
  match i with
  | Some (OrderService database _ _) => mret database
  | _ => raise TypeError
  end.

Definition OrderService_paymentProcessor (this : loc) : Async loc :=
  i ← instance_at this;
  match i with
  | Some (OrderService _ paymentProcessor _) => mret paymentProcessor
  | _ => raise TypeError
  end.

Definition OrderService_notificationService (this : loc) : Async loc :=
  i ← instance_at this;
  match i with
  | Some (OrderService _ _ notificationService) => mret notificationService
  | _ => raise TypeError
  end.

(** [items.reduce((sum, item) => sum + item.price, 0)] *)
Definition items_total (items : list Item) : spec_float :=
  fold_left (λ sum item, Number_add sum (item_price item)) items (S754_zero false).

Definition OrderService_createOrder `{Host} (this : loc) (userId : string)
    (items : list Item) : Async Data :=
  let total := items_total items in
  token ← Math_random_toString36;
  let order :=
    DObject {[ "id" := DString ("order_" +:+ token);
               "userId" := DString userId;
               "items" := DArray (map Item_object items);
               "total" := DNumber total;
               "status" := DString "pending" ]} in
  db ← OrderService_database this;
  Database_connect db;;
  db ← OrderService_database this;
  Database_save db "orders" order;;
  db ← OrderService_database this;
  Database_disconnect db;;
  mret order.

Definition OrderService_getUserById (this : loc) (userId : Data) : Async Data :=
  db ← OrderService_database this;
  Database_connect db;;
  db ← OrderService_database this;
  user ← Database_findById db "users" userId;
  db ← OrderService_database this;
  Database_disconnect db;;
  mret user.

Definition OrderService_processOrderPayment `{Host} (this : loc)
    (orderId cardToken : string) : Async bool :=
  db ← OrderService_database this;
  Database_connect db;;
  db ← OrderService_database this;
  order ← Database_findById db "orders" (DString orderId);
  db ← OrderService_database this;
  Database_disconnect db;;
  if negb (truthy order)
  then raise (ErrorObject (new_Error "Order not found"))
  else
    try_catch
      (processor ← OrderService_paymentProcessor this;
       total ← lift (get_prop order "total");
       paymentResult ← PaymentProcessor_processPayment processor total "USD" cardToken;
       if payment_success paymentResult
       then
         db ← OrderService_database this;
         Database_connect db;;
         db ← OrderService_database this;
         Database_update db "orders" orderId
           (DObject {[ "status" := DString "paid";
                       "transactionId" := DString (transactionId paymentResult) ]});;
         db ← OrderService_database this;
         Database_disconnect db;;
         userId ← lift (get_prop order "userId");
         user ← OrderService_getUserById this userId;
         (if truthy user
          then
            notifications ← OrderService_notificationService this;
            NotificationService_sendOrderConfirmation notifications user order
          else mret tt);;
         mret true
       else mret false)
      (λ error,
         console_error [CString "Payment processing failed:"; CException error];;
         mret false).

Definition OrderService_refundOrder `{Host} (this : loc) (orderId transactionId : string)
  : Async bool :=
  try_catch
    (processor ← OrderService_paymentProcessor this;
     refundResult ← PaymentProcessor_refundPayment processor transactionId None;
     if refund_success refundResult
     then
       db ← OrderService_database this;
       Database_connect db;;
       db ← OrderService_database this;
       Database_update db "orders" orderId
         (DObject {[ "status" := DString "cancelled";
                     "refundId" := DString (refundId refundResult) ]});;
       db ← OrderService_database this;
       Database_disconnect db;;
       mret true
     else mret false)
    (λ error,
       console_error [CString "Refund processing failed:"; CException error];;
       mret false).

(** *** Callers of the services *)

(** A caller that sends a list of emails through an email service, one
    after the other. *)
Fixpoint send_all `{Host} (service : loc) (emails : list Email) : Async unit :=
  match emails with
  | [] => mret tt
  | e :: emails' =>
      EmailService_sendEmail service (to e) (subject e) (body e);;
      send_all service emails'
  end.

(** A caller that welcomes a list of users. *)
Fixpoint welcome_all `{Host} (notifications : loc) (users : list User) : Async unit :=
  match users with
  | [] => mret tt
  | u :: users' =>
      NotificationService_sendWelcomeNotification notifications u;;
      welcome_all notifications users'
  end.

(** The classes behind each interface. *)
Definition is_Database (i : Instance) : bool :=
  match i with
  | MySQLDatabase _ | MongoDatabase _ | PostgreSQLDatabase _ => true
  | _ => false
  end.

(** The classes that have a method called [sendEmail]. *)
Definition has_sendEmail (i : Instance) : bool :=
  match i with
  | SMTPEmailService | SendGridEmailService | AWSEmailService | MockEmailService _
  | ExtendedNotificationService _ => true
  | _ => false
  end.

Definition is_PaymentProcessor (i : Instance) : bool :=
  match i with
  | StripePaymentProcessor | PayPalPaymentProcessor | MockPaymentProcessor _ _ => true
  | _ => false
  end.

Definition is_NotificationService (i : Instance) : bool :=
  match i with
  | NotificationService _ | ExtendedNotificationService _ => true
  | _ => false
  end.

(** A database with its [connection] field set. *)
Definition with_connection (i : Instance) (c : Data) : Instance :=
  match i with
  | MySQLDatabase _ => MySQLDatabase c
  | MongoDatabase _ => MongoDatabase c
  | PostgreSQLDatabase _ => PostgreSQLDatabase c
  | _ => i
  end.

(** A host to run examples on. *)
Definition example_Host : Host :=
  {| Number_toString := λ _, "29.99";
     Date_toString := λ _, "Thu Jan 01 1970";
     random36 := λ n, "0.4fzyo82mvyr";
     clock := λ n, 0%Z |}.

(** A typed caller that makes a list of payments (amount, currency, card
    token) and collects the results. *)
Fixpoint pay_all `{Host} (processor : loc) (payments : list (spec_float * string * string))
  : Async (list PaymentResult) :=
  match payments with
  | [] => mret []
  | (amount, currency, cardToken) :: payments' =>
      r ← PaymentProcessor_processPayment processor (DNumber amount) currency cardToken;
      rs ← pay_all processor payments';
      mret (r :: rs)
  end.

(** What [findById] of a database of class [i] answers. *)
Definition found (i : Instance) (collection : string) (id : Data) : Data :=
  match i with
  | MongoDatabase _ => DObject {[ "_id" := id; "collection" := DString collection ]}
  | _ => DObject {[ "id" := id; "table" := DString collection ]}
  end.

(** What a call guarantees from a state: it returns a value and leaves a
    state that satisfy [Q], or it throws an exception and leaves a state
    that satisfy [E]. *)
Definition post {A : Type} (m : Async A) (st : State)
    (Q : A → State → Prop) (E : Exception → State → Prop) : Prop :=
  match m st with
  | (Ok a, st') => Q a st'
  | (Raise x, st') => E x st'
  end.

(** The only exception the runtime itself throws here. *)
Definition is_TypeError (x : Exception) (st : State) : Prop := x = TypeError.

Definition anything {A : Type} (a : A) (st : State) : Prop := True.

(** What a refund needs: the receiver is an [OrderService] whose
    [paymentProcessor] is a payment processor and whose [database] is a
    database. *)
Definition wired_for_refund (this : loc) (st : State) : bool :=
  match heap st !! this with
  | Some (OrderService d p _) =>
      match heap st !! p, heap st !! d with
      | Some pi, Some di => is_PaymentProcessor pi && is_Database di
      | _, _ => false
      end
  | _ => false
  end.

(** Calls that draw no random string, whether they return or throw. *)
Definition draws_nothing {A : Type} (m : Async A) : Prop :=
  ∀ st : State,
    post m st (λ _ st', random_calls st' = random_calls st)
      (λ _ st', random_calls st' = random_calls st).

(** *** The demonstration *)

(** [new C(...)]: the instance gets an address no instance has yet. *)
Definition new_instance (i : Instance) : Async loc :=
  λ st,
    let l := fresh (dom (heap st)) in
    (Ok l, mkState (<[l := i]> (heap st)) (console st) (random_calls st) (date_calls st)).

(** [container.get(name)] inside an [async] function: the [Error] that
    [get] throws rejects the promise. *)
Definition container_get (container : DIContainer) (name : string) : Async Value :=
  match outcome (get name) container with
  | Normal v => mret v
  | Throw e => raise (ErrorObject e)
  end.

(** A value used as an instance.  Everything the demonstration registers
    is an instance, so what it gets back from the container always is a
    reference; a value that is not one has no method to call. *)
Definition reference (v : Value) : Async loc :=
  match v with
  | VObject l => mret l
  | _ => raise TypeError
  end.

(** A property that the type says is a string, used as one. *)
Definition string_property (object : Data) (name : string) : Async string :=
  value ← lift (get_prop object name);
  match value with
  | DString s => mret s
  | _ => raise TypeError
  end.

(** [for (const x of array) { body }] *)
Fixpoint for_of {A : Type} (array : list A) (body : A → Async unit) : Async unit :=
  match array with
  | [] => mret tt
  | x :: array' => body x;; for_of array' body
  end.

(** The objects of the two mocks, as the console gets them. *)
Definition Email_object (e : Email) : Data :=
  DObject {[ "to" := DString (to e); "subject" := DString (subject e);
             "body" := DString (body e) ]}.

Definition PaymentResult_object (r : PaymentResult) : Data :=
  DObject {[ "success" := DBoolean (payment_success r);
             "transactionId" := DString (transactionId r);
             "message" := DString (payment_message r) ]}.

(** The number literals [99.99], [29.99] and [19.99] as binary64. *)
Definition number_99_99 : spec_float := S754_finite false 7036170730324623 (-46).
Definition number_29_99 : spec_float := S754_finite false 8441434551552573 (-48).
Definition number_19_99 : spec_float := S754_finite false 5626684784446013 (-48).

Definition demonstrateDIP `{Host} : Async unit :=
  console_log [CString ("=== Dependency Inversion Principle Demonstration ==="
                        +:+ newline)];;
  let container := new_DIContainer in
  o ← new_instance (MySQLDatabase DUndefined);
  let container := after (register "mysql-db" (VObject o)) container in
  o ← new_instance (MongoDatabase DUndefined);
  let container := after (register "mongo-db" (VObject o)) container in
  o ← new_instance (PostgreSQLDatabase DUndefined);
  let container := after (register "postgres-db" (VObject o)) container in
  o ← new_instance SMTPEmailService;
  let container := after (register "smtp-email" (VObject o)) container in
  o ← new_instance SendGridEmailService;
  let container := after (register "sendgrid-email" (VObject o)) container in
  o ← new_instance AWSEmailService;
  let container := after (register "aws-email" (VObject o)) container in
  o ← new_instance (MockEmailService []);
  let container := after (register "mock-email" (VObject o)) container in
  o ← new_instance StripePaymentProcessor;
  let container := after (register "stripe-payment" (VObject o)) container in
  o ← new_instance PayPalPaymentProcessor;
  let container := after (register "paypal-payment" (VObject o)) container in
  o ← new_instance (MockPaymentProcessor [] []);
  let container := after (register "mock-payment" (VObject o)) container in
  console_log [CString "--- Database Implementation Switching ---"];;
  let databases := ["mysql-db"; "mongo-db"; "postgres-db"] in
  for_of databases (λ dbType,
    database ← container_get container dbType;
    database ← reference database;
    userService ← new_instance (UserService database);
    user ← UserService_createUser userService
              {[ "name" := DString "John Doe"; "email" := DString "john@example.com" ]};
    id ← lift (get_prop user "id");
    console_log [CString ("Created user with " +:+ dbType +:+ ":"); CData id]);;
  console_log [CString (newline +:+ "--- Email Service Implementation Switching ---")];;
  let emailServices := ["smtp-email"; "sendgrid-email"; "aws-email"] in
  for_of emailServices (λ emailType,
    emailService ← container_get container emailType;
    emailService ← reference emailService;
    notificationService ← new_instance (NotificationService emailService);
    NotificationService_sendWelcomeNotification notificationService
      (mkUser (Some "1") "Jane Doe" "jane@example.com" None));;
  console_log [CString (newline +:+ "--- Payment Processor Implementation Switching ---")];;
  let paymentProcessors := ["stripe-payment"; "paypal-payment"] in
  for_of paymentProcessors (λ paymentType,
    paymentProcessor ← container_get container paymentType;
    paymentProcessor ← reference paymentProcessor;
    result ← PaymentProcessor_processPayment paymentProcessor (DNumber number_99_99)
               "USD" "test-token";
    console_log [CString (paymentType +:+ " result:");
                 CData (DString (payment_message result))]);;
  console_log [CString (newline +:+ "--- Full Application Example ---")];;
  database ← container_get container "mongo-db";
  emailService ← container_get container "mock-email";
  paymentProcessor ← container_get container "mock-payment";
  emailService ← reference emailService;
  notificationService ← new_instance (ExtendedNotificationService emailService);
  database ← reference database;
  paymentProcessor ← reference paymentProcessor;
  orderService ← new_instance (OrderService database paymentProcessor notificationService);
  order ← OrderService_createOrder orderService "user123"
             [mkItem "Widget A" number_29_99; mkItem "Widget B" number_19_99];
  console_log [CString "Created order:"; CData order];;
  orderId ← string_property order "id";
  paymentSuccess ← OrderService_processOrderPayment orderService orderId "test-card-token";
  console_log [CString "Payment processed:"; CData (DBoolean paymentSuccess)];;
  console_log [CString (newline +:+ "--- Testing Benefits ---")];;
  mockEmail ← container_get container "mock-email";
  mockPayment ← container_get container "mock-payment";
  mockEmail ← reference mockEmail;
  sentEmails ← MockEmailService_getSentEmails mockEmail;
  console_log [CString "Mock email sent emails:";
               CData (DArray (map Email_object sentEmails))];;
  mockPayment ← reference mockPayment;
  transactions ← MockPaymentProcessor_getTransactions mockPayment;
  console_log [CString "Mock payment transactions:";
               CData (DArray (map PaymentResult_object transactions))].

(** ** Equations of the two methods *)

Lemma register_eq (name : string) (service : Value) (this : DIContainer) :
  register name service this
  = (Normal tt, mkDIContainer (<[name := service]> (services this))).
Proof. reflexivity. Qed.

Lemma get_eq (name : string) (this : DIContainer) :
  get name this
  = (if ToBoolean (default VUndefined (services this !! name))
     then Normal (default VUndefined (services this !! name))
     else Throw (new_Error (not_found_message name)), this).
Proof.
  unfold get, mbind, Method_bind, services_get, Map_get; simpl.
  destruct (ToBoolean _); reflexivity.
Qed.

Lemma bind_eq {A B : Type} (m : Method A) (f : A → Method B) (this : DIContainer) :
  (m ≫= f) this
  = match outcome m this with
    | Normal a => f a (after m this)
    | Throw e => (Throw e, after m this)
    end.
Proof.
  unfold mbind, Method_bind, outcome, after.
  destruct (m this) as [[a | e] this']; reflexivity.
Qed.

Lemma after_register (name : string) (service : Value) (this : DIContainer) :
  after (register name service) this
  = mkDIContainer (<[name := service]> (services this)).
Proof. reflexivity. Qed.

Lemma after_get (name : string) (this : DIContainer) : after (get name) this = this.
Proof. unfold after. rewrite get_eq. reflexivity. Qed.

Lemma after_call (c : Call) (this : DIContainer) :
  after (call c) this
  = match c with
    | CallRegister name service => mkDIContainer (<[name := service]> (services this))
    | CallGet _ => this
    end.
Proof. destruct c as [name service | name]; [reflexivity | apply after_get]. Qed.

Lemma outcome_get_present (name : string) (v : Value) (this : DIContainer) :
  services this !! name = Some v →
  outcome (get name) this
  = if ToBoolean v then Normal v else Throw (new_Error (not_found_message name)).
Proof. intros Hv. unfold outcome. rewrite get_eq, Hv. simpl. by destruct (ToBoolean v). Qed.

Lemma outcome_get_absent (name : string) (this : DIContainer) :
  services this !! name = None →
  outcome (get name) this = Throw (new_Error (not_found_message name)).
Proof. intros Hv. unfold outcome. rewrite get_eq, Hv. reflexivity. Qed.

(** What [get] gives right after [register], for any value. *)
Lemma get_after_register (k : string) (v : Value) (this : DIContainer) :
  outcome (register k v;; get k) this
  = if ToBoolean v then Normal v else Throw (new_Error (not_found_message k)).
Proof.
  unfold outcome. rewrite bind_eq. simpl outcome. cbv iota.
  rewrite after_register. fold (outcome (get k) (mkDIContainer (<[k:=v]> (services this)))).
  apply outcome_get_present. simpl. apply lookup_insert_eq.
Qed.

(** The values that [if (!service)] rejects. *)
Lemma ToBoolean_false (v : Value) :
  ToBoolean v = false ↔
  v = VUndefined ∨ v = VNull ∨ v = VBoolean false ∨ v = VNumber S754_nan
  ∨ (∃ s, v = VNumber (S754_zero s)) ∨ v = VBigInt 0 ∨ v = VString "".
Proof.
  split.
  - destruct v as [| | b | x | z | s | id | l]; simpl; intros H; try discriminate.
    + auto.
    + auto.
    + subst b. auto.
    + destruct x; try discriminate; eauto 10.
    + apply negb_false_iff, Z.eqb_eq in H. subst z. auto 10.
    + apply negb_false_iff, String.eqb_eq in H. subst s. auto 10.
  - intros [-> | [-> | [-> | [-> | [[s ->] | [-> | ->]]]]]]; reflexivity.
Qed.

(** ** The message carries the key *)

Lemma length_append (s t : string) :
  String.length (s +:+ t) = String.length s + String.length t.
Proof. induction s as [| a s IH]; simpl; [reflexivity | by rewrite IH]. Qed.

Lemma append_cancel_r (s1 s2 t : string) : s1 +:+ t = s2 +:+ t → s1 = s2.
Proof.
  intros H.
  assert (Hlen : String.length s1 = String.length s2).
  { apply (f_equal String.length) in H. rewrite !length_append in H. lia. }
  revert s2 H Hlen. induction s1 as [| a s1 IH]; intros [| b s2] H Hlen;
    simpl in *; try discriminate; [reflexivity |].
  injection H as -> H. f_equal. apply IH; [exact H | lia].
Qed.

Lemma not_found_message_inj (k1 k2 : string) :
  not_found_message k1 = not_found_message k2 → k1 = k2.
Proof.
  unfold not_found_message. intros H. simpl in H.
  injection H as H. change (k1 +:+ " not found" = k2 +:+ " not found") in H.
  by apply append_cancel_r in H.
Qed.

(** ** Histories of calls *)

Lemma history_cons (c : Call) (cs : list Call) (this : DIContainer) :
  history (c :: cs) this = history cs (after (call c) this).
Proof. reflexivity. Qed.

Lemma history_snoc (cs : list Call) (c : Call) (this : DIContainer) :
  history (cs ++ [c]) this = after (call c) (history cs this).
Proof. unfold history. by rewrite fold_left_app. Qed.

Lemma last_registered_snoc (k : string) (cs : list Call) (c : Call) :
  last_registered k (cs ++ [c])
  = match c with
    | CallRegister n v => if decide (n = k) then Some v else last_registered k cs
    | CallGet _ => last_registered k cs
    end.
Proof.
  induction cs as [| c' cs IH]; simpl.
  - destruct c as [n v | n]; [by destruct (decide (n = k)) | reflexivity].
  - destruct c' as [n' v' | n']; rewrite IH; [| reflexivity].
    destruct c as [n v | n]; [| reflexivity].
    destruct (decide (n = k)); [reflexivity |].
    reflexivity.
Qed.

Lemma last_registered_None (k : string) (cs : list Call) :
  k ∉ registered_keys cs → last_registered k cs = None.
Proof.
  induction cs as [| [n v | n] cs IH]; simpl; intros Hk; [reflexivity | | auto].
  apply not_elem_of_cons in Hk as [Hne Hk]. rewrite (IH Hk).
  destruct (decide (n = k)); congruence.
Qed.

Lemma last_registered_Some (k : string) (cs : list Call) :
  k ∈ registered_keys cs → is_Some (last_registered k cs).
Proof.
  induction cs as [| [n v | n] cs IH]; simpl; intros Hk.
  - by apply elem_of_nil in Hk.
  - destruct (last_registered k cs) as [w |] eqn:Hw; [by eexists |].
    apply elem_of_cons in Hk as [-> | Hk].
    + rewrite decide_True by reflexivity. by eexists.
    + destruct (IH Hk) as [? ?]. discriminate.
  - auto.
Qed.

(** The entries of the container after a history, from any start. *)
Lemma services_history (cs : list Call) (this : DIContainer) (k : string) :
  services (history cs this) !! k
  = match last_registered k cs with
    | Some v => Some v
    | None => services this !! k
    end.
Proof.
  revert this. induction cs as [| c cs IH]; intros this; [reflexivity |].
  rewrite history_cons, IH, after_call. simpl.
  destruct c as [n v | n]; [| reflexivity].
  destruct (last_registered k cs) as [w |]; [reflexivity |]. simpl.
  rewrite lookup_insert. destruct (decide (n = k)); reflexivity.
Qed.

Lemma registry_inv_new : registry_inv [] new_DIContainer.
Proof. intros k. simpl. apply lookup_empty. Qed.

Lemma registry_inv_call (cs : list Call) (c : Call) (this : DIContainer) :
  registry_inv cs this → registry_inv (cs ++ [c]) (after (call c) this).
Proof.
  intros Hinv k. rewrite last_registered_snoc, after_call.
  destruct c as [n v | n]; simpl; [| apply Hinv].
  rewrite lookup_insert. destruct (decide (n = k)); [reflexivity | apply Hinv].
Qed.

Lemma registry_inv_history (cs : list Call) : registry_inv cs (history cs new_DIContainer).
Proof.
  intros k. rewrite services_history. simpl. rewrite lookup_empty.
  by destruct (last_registered k cs).
Qed.

(** ** The claims *)

(** C1.  Claim: for every key and every value, [get] right after
    [register] returns the registered value.  The container does so for
    every value that is truthy (see [get_after_register]); for a falsy one
    the test [if (!service)] takes the throwing branch.  At key ["port"]
    and the number [0]: the call throws "Service port not found" although
    the key has just been registered. *)
Theorem get_after_register_zero :
  outcome (register "port" (VNumber (S754_zero false));; get "port") new_DIContainer
  = Throw (new_Error "Service port not found")
  ∧ services (after (register "port" (VNumber (S754_zero false))) new_DIContainer)
      !! "port" = Some (VNumber (S754_zero false)).
Proof.
  split.
  - rewrite get_after_register. reflexivity.
  - rewrite after_register. simpl. apply lookup_insert_eq.
Qed.

(** C2.  A key that no call of the history registered: [get] throws, the
    error's message is [Service <key> not found], and no other key gives
    that message; the call returns nothing. *)
Theorem get_never_registered (cs : list Call) (k : string) :
  k ∉ registered_keys cs →
  ∃ e : Error,
    get k (history cs new_DIContainer) = (Throw e, history cs new_DIContainer)
    ∧ message e = "Service " +:+ k +:+ " not found"
    ∧ (∀ k' : string, message e = not_found_message k' → k' = k).
Proof.
  intros Hk. exists (new_Error (not_found_message k)). split; [| split].
  - rewrite get_eq, services_history, (last_registered_None _ _ Hk).
    simpl. by rewrite lookup_empty.
  - reflexivity.
  - intros k' Hk'. simpl in Hk'. symmetry. by apply not_found_message_inj.
Qed.

Lemma get_never_registered_witness :
  ∃ e : Error,
    get "missing"
      (history [CallRegister "db" (VObject 1%positive); CallGet "db"; CallGet "missing"]
         new_DIContainer)
    = (Throw e,
       history [CallRegister "db" (VObject 1%positive); CallGet "db"; CallGet "missing"]
         new_DIContainer)
    ∧ message e = "Service missing not found"
    ∧ (∀ k' : string, message e = not_found_message k' → k' = "missing").
Proof.
  apply (get_never_registered
           [CallRegister "db" (VObject 1%positive); CallGet "db"; CallGet "missing"] "missing").
  simpl. apply not_elem_of_cons. split; [discriminate | apply not_elem_of_nil].
Defined.

(** Sequencing after a [register], which never throws. *)
Lemma register_then {B : Type} (k : string) (v : Value) (m : Method B)
    (this : DIContainer) :
  (register k v;; m) this = m (mkDIContainer (<[k := v]> (services this))).
Proof. reflexivity. Qed.

(** What [get] gives after two registrations under one key. *)
Lemma get_after_reregister (k : string) (v1 v2 : Value) (this : DIContainer) :
  outcome (register k v1;; register k v2;; get k) this
  = if ToBoolean v2 then Normal v2 else Throw (new_Error (not_found_message k)).
Proof.
  unfold outcome. rewrite !register_then. simpl services.
  apply outcome_get_present. simpl. apply lookup_insert_eq.
Qed.

(** A registration leaves the entry of every other key as it was. *)
Lemma register_frame (k k' : string) (v : Value) (this : DIContainer) :
  k ≠ k' →
  services (after (register k v) this) !! k' = services this !! k'.
Proof. intros Hne. rewrite after_register. simpl. by apply lookup_insert_ne. Qed.

(** What [get] gives for each of two distinct keys registered in turn. *)
Lemma get_distinct_keys (k1 k2 : string) (v1 v2 : Value) (this : DIContainer) :
  k1 ≠ k2 →
  outcome (register k1 v1;; register k2 v2;; get k1) this
  = (if ToBoolean v1 then Normal v1 else Throw (new_Error (not_found_message k1)))
  ∧ outcome (register k1 v1;; register k2 v2;; get k2) this
    = (if ToBoolean v2 then Normal v2 else Throw (new_Error (not_found_message k2))).
Proof.
  intros Hne. unfold outcome. rewrite !register_then. simpl services. split.
  - apply outcome_get_present. simpl.
    rewrite lookup_insert_ne by congruence. apply lookup_insert_eq.
  - apply outcome_get_present. simpl. apply lookup_insert_eq.
Qed.

(** C3.  Claim: after [register(k, v1)] and [register(k, v2)], [get(k)]
    returns [v2].  The second registration does replace the first and
    neither call fails, and [get] returns [v2] whenever [v2] is truthy
    (see [get_after_reregister]).  At key ["verbose"], first an object and
    then the boolean [false]: the entry is [false], and [get] throws
    "Service verbose not found". *)
Theorem get_after_reregister_false :
  outcome (register "verbose" (VObject 1%positive);;
           register "verbose" (VBoolean false);;
           get "verbose") new_DIContainer
  = Throw (new_Error "Service verbose not found")
  ∧ services (after (register "verbose" (VObject 1%positive);;
                     register "verbose" (VBoolean false)) new_DIContainer)
      !! "verbose" = Some (VBoolean false).
Proof.
  split.
  - rewrite get_after_reregister. reflexivity.
  - unfold after. rewrite !register_then. simpl. apply lookup_insert_eq.
Qed.

(** C4.  Claim: after [register(k1, v1)] and [register(k2, v2)] with
    [k1 ≠ k2], [get(k1)] returns [v1] and [get(k2)] returns [v2].  The two
    entries never disturb each other (see [register_frame]), and each
    [get] returns its value when that value is truthy (see
    [get_distinct_keys]).  At ["prefix"] with the empty string and ["db"]
    with an object: [get("db")] returns the object, [get("prefix")] throws
    "Service prefix not found". *)
Theorem get_distinct_keys_empty_string :
  outcome (register "prefix" (VString "");;
           register "db" (VObject 1%positive);;
           get "prefix") new_DIContainer
  = Throw (new_Error "Service prefix not found")
  ∧ outcome (register "prefix" (VString "");;
             register "db" (VObject 1%positive);;
             get "db") new_DIContainer
    = Normal (VObject 1%positive).
Proof.
  assert (Hne : "prefix" ≠ "db") by discriminate.
  destruct (get_distinct_keys "prefix" "db" (VString "") (VObject 1%positive)
              new_DIContainer Hne) as [H1 H2].
  split; [rewrite H1 | rewrite H2]; reflexivity.
Qed.

(** The scenario for any three values [A], [B], [C]: register ["db"] as
    [A] and ["cache"] as [B], [get("db")], [get("missing")], register
    ["db"] as [C], [get("db")], [get("cache")].  The registrations return,
    [get("missing")] throws, and each of the other three [get]s returns
    the registered value when that value is truthy and throws the
    not-found error of its key when it is falsy. *)
Lemma scenario_trace (A B C : Value) :
  trace [CallRegister "db" A;
         CallRegister "cache" B;
         CallGet "db";
         CallGet "missing";
         CallRegister "db" C;
         CallGet "db";
         CallGet "cache"] new_DIContainer
  = [Normal VUndefined;
     Normal VUndefined;
     if ToBoolean A then Normal A else Throw (new_Error "Service db not found");
     Throw (new_Error "Service missing not found");
     Normal VUndefined;
     if ToBoolean C then Normal C else Throw (new_Error "Service db not found");
     if ToBoolean B then Normal B else Throw (new_Error "Service cache not found")].
Proof.
  cbn [trace]. rewrite !after_call. cbn [call services].
  rewrite (outcome_get_absent "missing")
    by (cbn [services]; rewrite !lookup_insert_ne by discriminate; apply lookup_empty).
  rewrite (outcome_get_present "db" A)
    by (cbn [services]; rewrite lookup_insert_ne by discriminate;
        apply lookup_insert_eq).
  rewrite (outcome_get_present "db" C) by (cbn [services]; apply lookup_insert_eq).
  rewrite (outcome_get_present "cache" B)
    by (cbn [services]; rewrite lookup_insert_ne by discriminate;
        apply lookup_insert_eq).
  reflexivity.
Qed.

(** C5.  Claim: in the scenario [get("db")] returns [A], [get("missing")]
    throws with the message naming ["missing"], and after ["db"] is
    registered again as [C], [get("db")] returns [C] and [get("cache")]
    still returns [B].  The container does so whenever [A], [B] and [C]
    are truthy (see [scenario_trace]; [scenario] below is the case of three
    instances).  With the number [0] for [A] and two instances for [B] and
    [C]: the first [get("db")] throws "Service db not found" although
    ["db"] has just been registered; the rest of the scenario goes as the
    claim says. *)
Theorem scenario_with_zero (b c : loc) :
  trace [CallRegister "db" (VNumber (S754_zero false));
         CallRegister "cache" (VObject b);
         CallGet "db";
         CallGet "missing";
         CallRegister "db" (VObject c);
         CallGet "db";
         CallGet "cache"] new_DIContainer
  = [Normal VUndefined;
     Normal VUndefined;
     Throw (new_Error "Service db not found");
     Throw (new_Error "Service missing not found");
     Normal VUndefined;
     Normal (VObject c);
     Normal (VObject b)].
Proof. rewrite scenario_trace. reflexivity. Qed.

(** The scenario for three instances (object references), which are
    truthy: every step goes as described. *)
Lemma scenario (a b c : loc) :
  trace [CallRegister "db" (VObject a);
         CallRegister "cache" (VObject b);
         CallGet "db";
         CallGet "missing";
         CallRegister "db" (VObject c);
         CallGet "db";
         CallGet "cache"] new_DIContainer
  = [Normal VUndefined;
     Normal VUndefined;
     Normal (VObject a);
     Throw (new_Error "Service missing not found");
     Normal VUndefined;
     Normal (VObject c);
     Normal (VObject b)].
Proof. vm_compute. reflexivity. Qed.

(** ** Registration and query order *)

Section Order.

Implicit Types (kvs : list (string * Value)) (ks : list string).

(** The entries after registering a list of pairs: the later pair wins,
    and what was there before stays under the other keys. *)
Lemma services_register_all kvs (this : DIContainer) :
  outcome (register_all kvs) this = Normal tt
  ∧ services (after (register_all kvs) this)
    = list_to_map (reverse kvs) ∪ services this.
Proof.
  revert this. induction kvs as [| [k v] kvs IH]; intros this.
  - split; [reflexivity |]. simpl. by rewrite (left_id_L ∅ (∪)).
  - simpl register_all. unfold outcome, after. rewrite register_then.
    destruct (IH (mkDIContainer (<[k := v]> (services this)))) as [Ho Hs].
    split; [exact Ho |]. unfold after in Hs. rewrite Hs. simpl services.
    rewrite reverse_cons, list_to_map_app. simpl.
    rewrite <- (assoc_L (∪)). f_equal.
    rewrite <- insert_union_l. by rewrite (left_id_L ∅ (∪)).
Qed.

(** With distinct keys the order of registration does not show. *)
Lemma register_all_perm kvs1 kvs2 (this : DIContainer) :
  NoDup kvs1.*1 → kvs1 ≡ₚ kvs2 →
  after (register_all kvs1) this = after (register_all kvs2) this.
Proof.
  intros Hnd Hp.
  destruct (services_register_all kvs1 this) as [_ H1].
  destruct (services_register_all kvs2 this) as [_ H2].
  destruct (after (register_all kvs1) this) as [m1].
  destruct (after (register_all kvs2) this) as [m2].
  simpl in *. f_equal. rewrite H1, H2. f_equal.
  apply list_to_map_proper.
  - by rewrite fmap_reverse, reverse_Permutation.
  - by rewrite !reverse_Permutation.
Qed.

Lemma lookup_register_all kvs (this : DIContainer) (k : string) (v : Value) :
  NoDup kvs.*1 → (k, v) ∈ kvs →
  services (after (register_all kvs) this) !! k = Some v.
Proof.
  intros Hnd Hin.
  destruct (services_register_all kvs this) as [_ ->].
  apply lookup_union_Some_l, elem_of_list_to_map.
  - by rewrite fmap_reverse, reverse_Permutation.
  - by apply elem_of_reverse.
Qed.

(** Queries leave the container alone and each gives what a single [get]
    gives. *)
Lemma query_all_eq ks (this : DIContainer) :
  query_all ks this = (Normal (map (λ k, (k, outcome (get k) this)) ks), this).
Proof.
  induction ks as [| k ks IH]; [reflexivity |].
  cbn [query_all map]. unfold outcome. rewrite get_eq. cbn [fst].
  rewrite bind_eq. unfold outcome, after. rewrite IH. reflexivity.
Qed.

(** X20.  Order independence: whatever the order of the registrations and of
    the queries, each key is answered by one and the same function of the
    key; for a key registered with [v] the answer is [v] when [v] is
    truthy, and the not-found error otherwise. *)
Lemma order_independence kvs1 kvs2 ks1 ks2 (this : DIContainer) :
  NoDup kvs1.*1 → kvs1 ≡ₚ kvs2 → ks1 ≡ₚ ks2 →
  ∃ answer : string → Completion Value,
    outcome (register_all kvs1;; query_all ks1) this
      = Normal (map (λ k, (k, answer k)) ks1)
    ∧ outcome (register_all kvs2;; query_all ks2) this
      = Normal (map (λ k, (k, answer k)) ks2)
    ∧ ∀ k v, (k, v) ∈ kvs1 →
        answer k = if ToBoolean v then Normal v
                   else Throw (new_Error (not_found_message k)).
Proof.
  intros Hnd Hp _.
  exists (λ k, outcome (get k) (after (register_all kvs1) this)).
  split; [| split].
  - unfold outcome at 1. rewrite bind_eq.
    rewrite (proj1 (services_register_all kvs1 this)).
    by rewrite query_all_eq.
  - unfold outcome at 1. rewrite bind_eq.
    rewrite (proj1 (services_register_all kvs2 this)).
    rewrite query_all_eq. simpl.
    by rewrite (register_all_perm kvs1 kvs2 this Hnd Hp).
  - intros k v Hin. apply outcome_get_present.
    by apply lookup_register_all.
Qed.

End Order.

(** C6.  Claim: registering distinct pairs in any order and querying in
    any order gives, per key, the registered value.  The answers do not
    depend on either order (see [order_independence]), and a truthy value
    is answered by itself.  At the pairs ["retries"] with the number [0] and
    ["db"] with an object, in both registration orders and both query
    orders: ["db"] is answered by the object, ["retries"] by the error
    "Service retries not found". *)
Theorem order_independent_but_zero_not_found :
  outcome (register_all [("retries", VNumber (S754_zero false));
                         ("db", VObject 1%positive)];;
           query_all ["retries"; "db"]) new_DIContainer
  = Normal [("retries", Throw (new_Error "Service retries not found"));
            ("db", Normal (VObject 1%positive))]
  ∧ outcome (register_all [("db", VObject 1%positive);
                           ("retries", VNumber (S754_zero false))];;
             query_all ["db"; "retries"]) new_DIContainer
    = Normal [("db", Normal (VObject 1%positive));
              ("retries", Throw (new_Error "Service retries not found"))].
Proof. split; vm_compute; reflexivity. Qed.

(** C7.  The registry invariant: in the new container and after any
    history of calls every key either has no entry (it was never
    registered) or has the single entry of its latest registration; each
    call, [register] or [get], keeps it so; and [get] on a key without an
    entry throws the not-found error, it never returns a value. *)
Theorem registry_invariant :
  registry_inv [] new_DIContainer
  ∧ (∀ (cs : list Call) (c : Call) (this : DIContainer),
       registry_inv cs this → registry_inv (cs ++ [c]) (after (call c) this))
  ∧ (∀ cs : list Call, registry_inv cs (history cs new_DIContainer))
  ∧ (∀ (this : DIContainer) (k : string),
       services this !! k = None →
       outcome (get k) this = Throw (new_Error (not_found_message k))).
Proof.
  split; [apply registry_inv_new |].
  split; [apply registry_inv_call |].
  split; [apply registry_inv_history |].
  intros this k. apply outcome_get_absent.
Qed.

Lemma registry_invariant_witness :
  registry_inv ([] ++ [CallRegister "db" (VObject 1%positive)])
    (after (call (CallRegister "db" (VObject 1%positive))) new_DIContainer)
  ∧ outcome (get "missing") new_DIContainer
    = Throw (new_Error (not_found_message "missing")).
Proof.
  destruct registry_invariant as (Hnew & Hstep & _ & Habsent). split.
  - apply (Hstep [] (CallRegister "db" (VObject 1%positive)) new_DIContainer Hnew).
  - apply (Habsent new_DIContainer "missing"). reflexivity.
Defined.

(** C8.  [register] always completes normally, on every key and value and
    in every container, and the only call that can throw is a [get], with
    the not-found error of its key. *)
Theorem register_total :
  (∀ (name : string) (service : Value) (this : DIContainer),
     outcome (register name service) this = Normal tt)
  ∧ (∀ (c : Call) (this : DIContainer) (e : Error),
       outcome (call c) this = Throw e →
       ∃ name : string,
         c = CallGet name ∧ e = new_Error (not_found_message name)).
Proof.
  split; [reflexivity |].
  intros [name service | name] this e H; [discriminate |].
  exists name. split; [reflexivity |].
  unfold outcome in H. simpl call in H. rewrite get_eq in H. simpl in H.
  destruct (ToBoolean _); [discriminate | congruence].
Qed.

Lemma register_total_witness :
  ∃ name : string,
    CallGet "missing" = CallGet name
    ∧ new_Error "Service missing not found" = new_Error (not_found_message name).
Proof.
  apply (proj2 register_total (CallGet "missing") new_DIContainer
           (new_Error "Service missing not found")).
  reflexivity.
Defined.

(** C9.  [get] is read-only: whether it returns or throws, the container
    after the call is the container before it. *)
Theorem get_read_only (k : string) (this : DIContainer) :
  after (get k) this = this
  ∧ (outcome (get k) this = Normal (Map_get (services this) k)
     ∨ outcome (get k) this = Throw (new_Error (not_found_message k))).
Proof.
  split; [apply after_get |].
  unfold outcome, Map_get. rewrite get_eq. simpl.
  destruct (ToBoolean _); [by left | by right].
Qed.

(** C10.  A key registered with a falsy value has an entry, yet [get]
    throws the not-found error for it; [null], [undefined], [0], the empty
    string and [false] are such values. *)
Theorem get_registered_falsy (this : DIContainer) (k : string) (v : Value) :
  ToBoolean v = false →
  Map_has (services (after (register k v) this)) k = true
  ∧ get k (after (register k v) this)
    = (Throw (new_Error (not_found_message k)), after (register k v) this).
Proof.
  intros Hv. rewrite after_register. split.
  - unfold Map_has. simpl. rewrite lookup_insert_eq.
    apply bool_decide_eq_true. by eexists.
  - rewrite get_eq. simpl. rewrite lookup_insert_eq. simpl. by rewrite Hv.
Qed.

Lemma get_registered_falsy_witness :
  Forall (λ v,
      Map_has (services (after (register "svc" v) new_DIContainer)) "svc" = true
      ∧ get "svc" (after (register "svc" v) new_DIContainer)
        = (Throw (new_Error (not_found_message "svc")),
           after (register "svc" v) new_DIContainer))
    [VNull; VUndefined; VNumber (S754_zero false); VString ""; VBoolean false].
Proof.
  repeat (apply List.Forall_cons;
          [apply (get_registered_falsy new_DIContainer "svc"); reflexivity |]).
  apply List.Forall_nil.
Defined.

(** ** The services: running a call *)

Local Open Scope list_scope.
Local Open Scope nat_scope.

Lemma Async_bind_eq {A B : Type} (m : Async A) (f : A → Async B) (st : State) :
  (m ≫= f) st
  = match m st with
    | (Ok a, st') => f a st'
    | (Raise x, st') => (Raise x, st')
    end.
Proof. reflexivity. Qed.

Lemma Async_bind_Ok {A B : Type} (m : Async A) (f : A → Async B) (st st' : State) (a : A) :
  m st = (Ok a, st') → (m ≫= f) st = f a st'.
Proof. intros H. by rewrite Async_bind_eq, H. Qed.

(** One step of a run: unfold the plumbing, then look instances up. *)
Ltac heap_lookup :=
  match goal with
  | |- context [<[?l := _]> _ !! ?l] => rewrite lookup_insert_eq
  | |- context [<[?l := _]> _ !! ?l'] => rewrite (lookup_insert_ne _ l l') by congruence
  | H : heap ?st !! ?l = _ |- context [heap ?st !! ?l] => rewrite H
  end.

Ltac plumbing :=
  lazy beta iota zeta delta
    [mbind mret Async_bind Async_ret Result_bind Result_ret raise lift try_catch
     console_log console_error Math_random_toString36 new_Date delay instance_at
     store negb];
  cbn [heap console random_calls date_calls fst snd
       payment_success transactionId payment_message
       refund_success refundId refund_message].

Ltac run := repeat (progress plumbing || heap_lookup).

(** ** The mock email service *)

Lemma EmailService_sendEmail_mock `{Host} (m : loc) (sent : list Email) (t s b : string)
    (st : State) :
  heap st !! m = Some (MockEmailService sent) →
  EmailService_sendEmail m t s b st
  = (Ok tt,
     mkState (<[m := MockEmailService (sent ++ [mkEmail t s b])]> (heap st))
       (console st
        ++ [(LevelLog, [CString ("Mock: Email would be sent to " +:+ t +:+ ": " +:+ s)])])
       (random_calls st) (date_calls st)).
Proof.
  intros Hm. unfold EmailService_sendEmail, MockEmailService_sendEmail. run.
  reflexivity.
Qed.

Lemma send_all_mock `{Host} (m : loc) (emails sent : list Email) (st : State) :
  heap st !! m = Some (MockEmailService sent) →
  ∃ st' : State,
    send_all m emails st = (Ok tt, st')
    ∧ heap st' = <[m := MockEmailService (sent ++ emails)]> (heap st)
    ∧ length (console st') = length (console st) + length emails
    ∧ random_calls st' = random_calls st ∧ date_calls st' = date_calls st.
Proof.
  revert sent st. induction emails as [| [t s b] emails IH]; intros sent st Hm.
  - exists st. rewrite app_nil_r, insert_id by done. simpl. by rewrite Nat.add_0_r.
  - cbn [send_all to subject body].
    rewrite (Async_bind_Ok _ _ _ _ _ (EmailService_sendEmail_mock m sent t s b st Hm)).
    match goal with
    | |- context [send_all m emails ?s1] =>
        destruct (IH (sent ++ [mkEmail t s b])%list s1)
          as (st' & Hrun & Hheap & Hcons & Hr & Hd);
        [simpl; apply lookup_insert_eq |]
    end.
    exists st'. rewrite Hrun, Hheap, Hcons, Hr, Hd. simpl.
    rewrite insert_insert_eq, <- app_assoc, length_app. simpl.
    repeat split; lia.
Qed.

(** X1.  What a mock email service has recorded is what was sent through
    it: after any list of emails is sent to a mock that already holds
    [sent], [getSentEmails] answers [sent] followed by those emails, in the
    order they were sent, and the console has one more line per email. *)
Theorem mock_records_what_is_sent `{Host} (m : loc) (sent emails : list Email) (st : State) :
  heap st !! m = Some (MockEmailService sent) →
  ∃ st' : State,
    (send_all m emails;; MockEmailService_getSentEmails m) st
    = (Ok (sent ++ emails), st')
    ∧ heap st' = <[m := MockEmailService (sent ++ emails)]> (heap st)
    ∧ length (console st') = length (console st) + length emails.
Proof.
  intros Hm.
  destruct (send_all_mock m emails sent st Hm) as (st' & Hrun & Hheap & Hcons & _).
  exists st'. rewrite (Async_bind_Ok _ _ _ _ _ Hrun).
  unfold MockEmailService_getSentEmails. plumbing.
  rewrite Hheap, lookup_insert_eq. auto.
Qed.

Lemma mock_records_what_is_sent_witness :
  ∃ st' : State,
    (@send_all example_Host 1%positive
       [mkEmail "a@x" "s1" "b1"; mkEmail "b@x" "s2" "b2"];;
     MockEmailService_getSentEmails 1%positive)
      (mkState {[ 1%positive := MockEmailService [mkEmail "z@x" "s0" "b0"] ]} [] 0 0)
    = (Ok ([mkEmail "z@x" "s0" "b0"]
           ++ [mkEmail "a@x" "s1" "b1"; mkEmail "b@x" "s2" "b2"]), st')
    ∧ heap st'
      = <[1%positive := MockEmailService
                          ([mkEmail "z@x" "s0" "b0"]
                           ++ [mkEmail "a@x" "s1" "b1"; mkEmail "b@x" "s2" "b2"])]>
          {[ 1%positive := MockEmailService [mkEmail "z@x" "s0" "b0"] ]}
    ∧ length (console st') = 0 + 2.
Proof.
  exact (@mock_records_what_is_sent example_Host 1%positive [mkEmail "z@x" "s0" "b0"]
           [mkEmail "a@x" "s1" "b1"; mkEmail "b@x" "s2" "b2"]
           (mkState {[ 1%positive := MockEmailService [mkEmail "z@x" "s0" "b0"] ]} [] 0 0)
           eq_refl).
Defined.

(** X2.  [clearSentEmails] forgets everything recorded so far and nothing
    afterwards: whatever the mock held, clearing it and then sending a list
    of emails leaves exactly that list. *)
Theorem clear_forgets_only_the_past `{Host} (m : loc) (sent emails : list Email) (st : State) :
  heap st !! m = Some (MockEmailService sent) →
  ∃ st' : State,
    (MockEmailService_clearSentEmails m;;
     send_all m emails;;
     MockEmailService_getSentEmails m) st
    = (Ok emails, st').
Proof.
  intros Hm. unfold MockEmailService_clearSentEmails.
  rewrite Async_bind_eq. unfold store at 1. cbv beta iota.
  match goal with
  | |- context [(send_all m emails ≫= _) ?s1] =>
      destruct (send_all_mock m emails [] s1) as (st' & Hrun & Hheap & _);
      [simpl; apply lookup_insert_eq |]
  end.
  exists st'. rewrite (Async_bind_Ok _ _ _ _ _ Hrun).
  unfold MockEmailService_getSentEmails. plumbing.
  rewrite Hheap, lookup_insert_eq. reflexivity.
Qed.

Lemma clear_forgets_only_the_past_witness :
  ∃ st' : State,
    (MockEmailService_clearSentEmails 1%positive;;
     @send_all example_Host 1%positive [mkEmail "a@x" "s1" "b1"];;
     MockEmailService_getSentEmails 1%positive)
      (mkState {[ 1%positive := MockEmailService [mkEmail "z@x" "s0" "b0"] ]} [] 0 0)
    = (Ok [mkEmail "a@x" "s1" "b1"], st').
Proof.
  apply (@clear_forgets_only_the_past example_Host 1%positive [mkEmail "z@x" "s0" "b0"]).
  reflexivity.
Defined.

(** ** The notification services *)

Lemma sendWelcomeNotification_mock `{Host} (n m : loc) (i : Instance) (sent : list Email)
    (u : User) (st : State) :
  heap st !! n = Some i →
  i = NotificationService m ∨ i = ExtendedNotificationService m →
  heap st !! m = Some (MockEmailService sent) →
  NotificationService_sendWelcomeNotification n u st
  = (Ok tt,
     mkState
       (<[m := MockEmailService
                 (sent ++ [mkEmail (user_email u) "Welcome to our platform!"
                             ("Hello " +:+ user_name u
                              +:+ ", welcome to our amazing platform!")])]> (heap st))
       (console st
        ++ [(LevelLog, [CString ("Mock: Email would be sent to " +:+ user_email u
                                 +:+ ": " +:+ "Welcome to our platform!")])])
       (random_calls st) (date_calls st)).
Proof.
  intros Hn Hi Hm.
  unfold NotificationService_sendWelcomeNotification, NotificationService_emailService.
  destruct Hi as [-> | ->]; run;
    apply (EmailService_sendEmail_mock m sent _ _ _ st Hm).
Qed.

(** X3.  Every welcome reaches the user it is for: when a notification
    service (the base class or the extended one) is wired to a mock email
    service, welcoming a list of users adds one email per user to the mock,
    in the order of the list, addressed to that user's [email], with the
    subject "Welcome to our platform!" and a body that greets the user by
    [name]. *)
Theorem welcome_reaches_each_user `{Host} (n m : loc) (i : Instance) (sent : list Email)
    (users : list User) (st : State) :
  heap st !! n = Some i →
  i = NotificationService m ∨ i = ExtendedNotificationService m →
  heap st !! m = Some (MockEmailService sent) →
  ∃ (new : list Email) (st' : State),
    (welcome_all n users;; MockEmailService_getSentEmails m) st = (Ok (sent ++ new), st')
    ∧ Forall2 (λ u e, e = mkEmail (user_email u) "Welcome to our platform!"
                          ("Hello " +:+ user_name u
                           +:+ ", welcome to our amazing platform!"))
        users new.
Proof.
  intros Hn Hi Hm.
  assert (Hne : m ≠ n) by (destruct Hi; congruence).
  revert sent st Hn Hm. induction users as [| u users IH]; intros sent st Hn Hm.
  - exists [], st. split; [| constructor].
    cbn [welcome_all]. unfold MockEmailService_getSentEmails. run.
    by rewrite app_nil_r.
  - cbn [welcome_all]. rewrite Async_bind_eq, Async_bind_eq.
    rewrite (sendWelcomeNotification_mock n m i sent u st Hn Hi Hm).
    match goal with
    | |- context [welcome_all n users ?s1] =>
        destruct (IH (sent ++ [mkEmail (user_email u) "Welcome to our platform!"
                                 ("Hello " +:+ user_name u
                                  +:+ ", welcome to our amazing platform!")]) s1)
          as (new & st' & Hrun & Hall)
    end.
    + simpl. by rewrite lookup_insert_ne.
    + simpl. apply lookup_insert_eq.
    + rewrite Async_bind_eq in Hrun. eexists (_ :: new), st'.
      rewrite Hrun, <- app_assoc. split; [reflexivity |]. by constructor.
Qed.

Lemma welcome_reaches_each_user_witness :
  ∃ (new : list Email) (st' : State),
    (@welcome_all example_Host 2%positive [mkUser None "Jane Doe" "jane@example.com" None];;
     MockEmailService_getSentEmails 1%positive)
      (mkState {[ 1%positive := MockEmailService [];
                  2%positive := NotificationService 1%positive ]} [] 0 0)
    = (Ok ([] ++ new), st')
    ∧ Forall2 (λ u e, e = mkEmail (user_email u) "Welcome to our platform!"
                          ("Hello " +:+ user_name u
                           +:+ ", welcome to our amazing platform!"))
        [mkUser None "Jane Doe" "jane@example.com" None] new.
Proof.
  apply (@welcome_reaches_each_user example_Host 2%positive 1%positive
           (NotificationService 1%positive) []
           [mkUser None "Jane Doe" "jane@example.com" None]
           (mkState {[ 1%positive := MockEmailService [];
                       2%positive := NotificationService 1%positive ]} [] 0 0)).
  - reflexivity.
  - left. reflexivity.
  - reflexivity.
Defined.

(** X4.  A password reset is sent to the user and carries the token: with
    a mock email service behind the notification service, the call adds
    exactly one email, to the user's [email], with the subject "Password
    Reset Request"; its body ends with [/reset?token=] followed by the
    token, and no other token gives that body. *)
Theorem password_reset_carries_token `{Host} (n m : loc) (i : Instance) (sent : list Email)
    (u : User) (resetToken : string) (st : State) :
  heap st !! n = Some i →
  i = NotificationService m ∨ i = ExtendedNotificationService m →
  heap st !! m = Some (MockEmailService sent) →
  ∃ (e : Email) (st' : State),
    (NotificationService_sendPasswordResetNotification n u resetToken;;
     MockEmailService_getSentEmails m) st
    = (Ok (sent ++ [e]), st')
    ∧ to e = user_email u
    ∧ subject e = "Password Reset Request"
    ∧ body e = "Hi " +:+ user_name u
               +:+ ", click here to reset your password: /reset?token=" +:+ resetToken
    ∧ ∀ token' : string,
        body e = "Hi " +:+ user_name u
                 +:+ ", click here to reset your password: /reset?token=" +:+ token'
        → token' = resetToken.
Proof.
  intros Hn Hi Hm.
  eexists (mkEmail _ _ _), _. split; [| split; [| split; [| split]]].
  - unfold NotificationService_sendPasswordResetNotification,
      NotificationService_emailService.
    rewrite Async_bind_eq, Async_bind_eq.
    destruct Hi as [-> | ->]; run;
      rewrite (EmailService_sendEmail_mock m sent _ _ _ st Hm);
      unfold MockEmailService_getSentEmails; run; reflexivity.
  - reflexivity.
  - reflexivity.
  - reflexivity.
  - cbn [body]. intros token' Heq.
    apply (inj (String.app "Hi ")), (inj (String.app (user_name u))) in Heq.
    by apply (inj (String.app ", click here to reset your password: /reset?token="))
      in Heq.
Qed.

Lemma password_reset_carries_token_witness :
  ∃ (e : Email) (st' : State),
    (@NotificationService_sendPasswordResetNotification example_Host 2%positive
       (mkUser None "Jane Doe" "jane@example.com" None) "tok123";;
     MockEmailService_getSentEmails 1%positive)
      (mkState {[ 1%positive := MockEmailService [];
                  2%positive := ExtendedNotificationService 1%positive ]} [] 0 0)
    = (Ok ([] ++ [e]), st')
    ∧ to e = "jane@example.com"
    ∧ subject e = "Password Reset Request"
    ∧ body e = "Hi " +:+ "Jane Doe"
               +:+ ", click here to reset your password: /reset?token=" +:+ "tok123"
    ∧ ∀ token' : string,
        body e = "Hi " +:+ "Jane Doe"
                 +:+ ", click here to reset your password: /reset?token=" +:+ token'
        → token' = "tok123".
Proof.
  exact (@password_reset_carries_token example_Host 2%positive 1%positive
           (ExtendedNotificationService 1%positive) []
           (mkUser None "Jane Doe" "jane@example.com" None) "tok123"
           (mkState {[ 1%positive := MockEmailService [];
                       2%positive := ExtendedNotificationService 1%positive ]} [] 0 0)
           eq_refl (or_intror eq_refl) eq_refl).
Defined.

(** X5.  Nothing checks what a notification service is wired to: when its
    [emailService] is an instance of a class that has no method called
    [sendEmail] (a database or a payment processor taken from the container
    under the wrong name, say), both notifications throw a [TypeError] and
    change nothing, not even the console. *)
Theorem miswired_notification_throws `{Host} (n e : loc) (i j : Instance) (u : User)
    (resetToken : string) (st : State) :
  heap st !! n = Some i →
  i = NotificationService e ∨ i = ExtendedNotificationService e →
  heap st !! e = Some j →
  has_sendEmail j = false →
  NotificationService_sendWelcomeNotification n u st = (Raise TypeError, st)
  ∧ NotificationService_sendPasswordResetNotification n u resetToken st
    = (Raise TypeError, st).
Proof.
  intros Hn Hi He Hj.
  unfold NotificationService_sendWelcomeNotification,
    NotificationService_sendPasswordResetNotification,
    NotificationService_emailService, EmailService_sendEmail.
  destruct Hi as [-> | ->]; destruct j; try discriminate Hj; run; split; reflexivity.
Qed.

Lemma miswired_notification_throws_witness :
  @NotificationService_sendWelcomeNotification example_Host 2%positive
    (mkUser None "Jane Doe" "jane@example.com" None)
    (mkState {[ 1%positive := MySQLDatabase DUndefined;
                2%positive := NotificationService 1%positive ]} [] 0 0)
  = (Raise TypeError,
     mkState {[ 1%positive := MySQLDatabase DUndefined;
                2%positive := NotificationService 1%positive ]} [] 0 0)
  ∧ @NotificationService_sendPasswordResetNotification example_Host 2%positive
      (mkUser None "Jane Doe" "jane@example.com" None) "tok"
      (mkState {[ 1%positive := MySQLDatabase DUndefined;
                  2%positive := NotificationService 1%positive ]} [] 0 0)
    = (Raise TypeError,
       mkState {[ 1%positive := MySQLDatabase DUndefined;
                  2%positive := NotificationService 1%positive ]} [] 0 0).
Proof.
  exact (@miswired_notification_throws example_Host 2%positive 1%positive
           (NotificationService 1%positive) (MySQLDatabase DUndefined)
           (mkUser None "Jane Doe" "jane@example.com" None) "tok"
           (mkState {[ 1%positive := MySQLDatabase DUndefined;
                       2%positive := NotificationService 1%positive ]} [] 0 0)
           eq_refl (or_introl eq_refl) eq_refl eq_refl).
Defined.

(** ** Order confirmations *)

(** The items of a typed order give one line each. *)
Lemma Array_map_items `{Host} (items : list Item) :
  Array_map (DArray (map Item_object items))
    (λ item,
       name ← get_prop item "name";
       name_string ← ToString name;
       price ← get_prop item "price";
       price_string ← ToString price;
       mret ("- " +:+ name_string +:+ ": $" +:+ price_string))
  = Ok (map (λ i, "- " +:+ item_name i +:+ ": $" +:+ Number_toString (item_price i))
          items).
Proof.
  unfold Array_map. induction items as [| i items IH]; [reflexivity |].
  cbn [map mapM]. rewrite IH.
  unfold Item_object, get_prop.
  rewrite lookup_insert_eq.
  rewrite lookup_insert_ne by discriminate. rewrite lookup_singleton_eq.
  reflexivity.
Qed.

Lemma sendOrderConfirmation_state `{Host} (n : loc) (user order : Data) (st : State) :
  ∃ (r : Result unit) (lines : list (ConsoleLevel * list ConsoleArg)),
    NotificationService_sendOrderConfirmation n user order st
    = (r, mkState (heap st) (console st ++ lines) (random_calls st) (date_calls st))
    ∧ length lines ≤ 1.
Proof.
  assert (Hnone : ∀ x : Exception,
             ∃ (r : Result unit) (lines : list (ConsoleLevel * list ConsoleArg)),
               @raise unit x st
               = (r, mkState (heap st) (console st ++ lines)
                       (random_calls st) (date_calls st))
               ∧ length lines ≤ 1).
  { intros x. exists (Raise x), []. destruct st. unfold raise. simpl.
    rewrite app_nil_r. split; [reflexivity | lia]. }
  unfold NotificationService_sendOrderConfirmation,
    ExtendedNotificationService_sendOrderConfirmation,
    ExtendedNotificationService_sendEmail.
  rewrite Async_bind_eq. unfold instance_at. cbv beta iota zeta.
  destruct (heap st !! n) as [[] |]; try apply Hnone.
  rewrite Async_bind_eq. unfold lift at 1.
  match goal with |- context [match ?r with Ok _ => _ | Raise _ => _ end] =>
    destruct r as [itemsList | x] end; [| apply Hnone].
  cbv beta iota zeta. rewrite Async_bind_eq. unfold lift at 1.
  match goal with |- context [match ?r with Ok _ => _ | Raise _ => _ end] =>
    destruct r as [body | x] end; [| apply Hnone].
  cbv beta iota zeta. rewrite Async_bind_eq. unfold lift at 1.
  destruct (get_prop user "email") as [email | x]; [| apply Hnone].
  cbv beta iota zeta. rewrite Async_bind_eq. unfold lift at 1.
  destruct (ToString email) as [recipient | x]; [| apply Hnone].
  cbv beta iota zeta. unfold console_log.
  eexists (Ok tt), [_]. split; [reflexivity | simpl; lia].
Qed.

(** X6.  [sendOrderConfirmation] never reaches the email service.  Called
    on any receiver with any two arguments, and whether it returns or
    throws, it leaves every instance as it was (a mock email service
    records nothing) and writes at most one line to the console. *)
Theorem order_confirmation_sends_no_email `{Host} (n : loc) (user order : Data)
    (st : State) :
  heap (snd (NotificationService_sendOrderConfirmation n user order st)) = heap st
  ∧ ∃ lines : list (ConsoleLevel * list ConsoleArg),
      console (snd (NotificationService_sendOrderConfirmation n user order st))
      = console st ++ lines
      ∧ length lines ≤ 1.
Proof.
  destruct (sendOrderConfirmation_state n user order st) as (r & lines & -> & Hlen).
  split; [reflexivity |]. by exists lines.
Qed.

(** X7.  A well-typed order confirmation only writes a line.  For a user
    object with string [name] and [email] and an order object with string
    [id], number [total] and an [items] array of name/price objects,
    [sendOrderConfirmation] on the extended service returns normally and
    its whole effect is the console line "Order notification: Order
    Confirmation to <email>": the email service behind it is not called. *)
Theorem order_confirmation_only_logs `{Host} (n e : loc) (ufields ofields : gmap string Data)
    (name email oid : string) (total : spec_float) (items : list Item) (st : State) :
  heap st !! n = Some (ExtendedNotificationService e) →
  ufields !! "name" = Some (DString name) →
  ufields !! "email" = Some (DString email) →
  ofields !! "items" = Some (DArray (map Item_object items)) →
  ofields !! "id" = Some (DString oid) →
  ofields !! "total" = Some (DNumber total) →
  NotificationService_sendOrderConfirmation n (DObject ufields) (DObject ofields) st
  = (Ok tt,
     mkState (heap st)
       (console st
        ++ [(LevelLog,
             [CString ("Order notification: Order Confirmation to " +:+ email)])])
       (random_calls st) (date_calls st)).
Proof.
  intros Hn Hname Hemail Hitems Hid Htotal.
  unfold NotificationService_sendOrderConfirmation,
    ExtendedNotificationService_sendOrderConfirmation,
    ExtendedNotificationService_sendEmail.
  assert (Hi : get_prop (DObject ofields) "items" = Ok (DArray (map Item_object items)))
    by (unfold get_prop; by rewrite Hitems).
  assert (Ho : get_prop (DObject ofields) "id" = Ok (DString oid))
    by (unfold get_prop; by rewrite Hid).
  assert (Ht : get_prop (DObject ofields) "total" = Ok (DNumber total))
    by (unfold get_prop; by rewrite Htotal).
  assert (Hu : get_prop (DObject ufields) "name" = Ok (DString name))
    by (unfold get_prop; by rewrite Hname).
  assert (He : get_prop (DObject ufields) "email" = Ok (DString email))
    by (unfold get_prop; by rewrite Hemail).
  rewrite Hi, Ho, Ht, Hu, He.
  rewrite Async_bind_eq. unfold instance_at. rewrite Hn. cbv beta iota zeta.
  cbn [mbind Result_bind]. rewrite Array_map_items.
  reflexivity.
Qed.

Lemma order_confirmation_only_logs_witness :
  @NotificationService_sendOrderConfirmation example_Host 2%positive
    (DObject {[ "name" := DString "Jane"; "email" := DString "jane@example.com" ]})
    (DObject {[ "items" := DArray (map Item_object [mkItem "Widget A" S754_nan]);
                "id" := DString "order_1";
                "total" := DNumber S754_nan ]})
    (mkState {[ 1%positive := MockEmailService [];
                2%positive := ExtendedNotificationService 1%positive ]} [] 0 0)
  = (Ok tt,
     mkState {[ 1%positive := MockEmailService [];
                2%positive := ExtendedNotificationService 1%positive ]}
       ([] ++ [(LevelLog,
                [CString ("Order notification: Order Confirmation to "
                          +:+ "jane@example.com")])])
       0 0).
Proof.
  exact (@order_confirmation_only_logs example_Host 2%positive 1%positive
           {[ "name" := DString "Jane"; "email" := DString "jane@example.com" ]}
           {[ "items" := DArray (map Item_object [mkItem "Widget A" S754_nan]);
              "id" := DString "order_1";
              "total" := DNumber S754_nan ]}
           "Jane" "jane@example.com" "order_1" S754_nan [mkItem "Widget A" S754_nan]
           (mkState {[ 1%positive := MockEmailService [];
                       2%positive := ExtendedNotificationService 1%positive ]} [] 0 0)
           eq_refl eq_refl eq_refl eq_refl eq_refl eq_refl).
Defined.

(** ** The databases and UserService *)

Ltac db_methods :=
  unfold Database_connect, Database_disconnect, Database_save, Database_findById,
    Database_update, Database_delete,
    MySQLDatabase_connect, MySQLDatabase_disconnect, MySQLDatabase_save,
    MySQLDatabase_findById, MySQLDatabase_update, MySQLDatabase_delete,
    MongoDatabase_connect, MongoDatabase_disconnect, MongoDatabase_save,
    MongoDatabase_findById, MongoDatabase_update, MongoDatabase_delete,
    PostgreSQLDatabase_connect, PostgreSQLDatabase_disconnect, PostgreSQLDatabase_save,
    PostgreSQLDatabase_findById, PostgreSQLDatabase_update, PostgreSQLDatabase_delete.

(** X8.  [UserService] never leaves a connection open.  With any of the
    three databases behind it, in whatever state, each of [createUser],
    [getUser], [updateUser] and [deleteUser] returns normally, and
    afterwards the database's [connection] is [null] and every other
    instance is as it was. *)
Theorem user_service_closes_connection `{Host} (this db : loc) (i : Instance)
    (id : string) (userData : gmap string Data) (st : State) :
  heap st !! this = Some (UserService db) →
  heap st !! db = Some i →
  is_Database i = true →
  (∃ user st', UserService_createUser this userData st = (Ok user, st')
               ∧ heap st' = <[db := with_connection i DNull]> (heap st))
  ∧ (∃ user st', UserService_getUser this id st = (Ok user, st')
                 ∧ heap st' = <[db := with_connection i DNull]> (heap st))
  ∧ (∃ st', UserService_updateUser this id userData st = (Ok tt, st')
            ∧ heap st' = <[db := with_connection i DNull]> (heap st))
  ∧ (∃ st', UserService_deleteUser this id st = (Ok tt, st')
            ∧ heap st' = <[db := with_connection i DNull]> (heap st)).
Proof.
  intros Hthis Hdb Hi.
  unfold UserService_createUser, UserService_getUser, UserService_updateUser,
    UserService_deleteUser, UserService_database.
  db_methods.
  destruct i; try discriminate Hi; run;
    (split; [| split; [| split]]);
    repeat (match goal with |- ∃ _, _ => eexists end);
    (split; [reflexivity |]);
    cbn [heap with_connection]; by rewrite ?insert_insert_eq.
Qed.

Lemma user_service_closes_connection_witness :
  (∃ user st',
     @UserService_createUser example_Host 2%positive {[ "name" := DString "John" ]}
       (mkState {[ 1%positive := MongoDatabase DUndefined;
                   2%positive := UserService 1%positive ]} [] 0 0)
     = (Ok user, st')
     ∧ heap st' = <[1%positive := with_connection (MongoDatabase DUndefined) DNull]>
                    {[ 1%positive := MongoDatabase DUndefined;
                       2%positive := UserService 1%positive ]})
  ∧ (∃ user st',
       UserService_getUser 2%positive "42"
         (mkState {[ 1%positive := MongoDatabase DUndefined;
                     2%positive := UserService 1%positive ]} [] 0 0)
       = (Ok user, st')
       ∧ heap st' = <[1%positive := with_connection (MongoDatabase DUndefined) DNull]>
                      {[ 1%positive := MongoDatabase DUndefined;
                         2%positive := UserService 1%positive ]})
  ∧ (∃ st',
       UserService_updateUser 2%positive "42" {[ "name" := DString "John" ]}
         (mkState {[ 1%positive := MongoDatabase DUndefined;
                     2%positive := UserService 1%positive ]} [] 0 0)
       = (Ok tt, st')
       ∧ heap st' = <[1%positive := with_connection (MongoDatabase DUndefined) DNull]>
                      {[ 1%positive := MongoDatabase DUndefined;
                         2%positive := UserService 1%positive ]})
  ∧ (∃ st',
       UserService_deleteUser 2%positive "42"
         (mkState {[ 1%positive := MongoDatabase DUndefined;
                     2%positive := UserService 1%positive ]} [] 0 0)
       = (Ok tt, st')
       ∧ heap st' = <[1%positive := with_connection (MongoDatabase DUndefined) DNull]>
                      {[ 1%positive := MongoDatabase DUndefined;
                         2%positive := UserService 1%positive ]}).
Proof.
  exact (@user_service_closes_connection example_Host 2%positive 1%positive
           (MongoDatabase DUndefined) "42" {[ "name" := DString "John" ]}
           (mkState {[ 1%positive := MongoDatabase DUndefined;
                       2%positive := UserService 1%positive ]} [] 0 0)
           eq_refl eq_refl eq_refl).
Defined.

(** X9.  [getUser] never answers [null] and never a user: whatever the id,
    the object it returns is truthy and has no [name] and no [email]; with
    [MySQLDatabase] or [PostgreSQLDatabase] its [id] is the id asked for,
    with [MongoDatabase] it has no [id] at all (the id is under [_id]). *)
Theorem getUser_returns_a_stub (this db : loc) (i : Instance) (id : string) (st : State) :
  heap st !! this = Some (UserService db) →
  heap st !! db = Some i →
  is_Database i = true →
  ∃ (user : Data) (st' : State),
    UserService_getUser this id st = (Ok user, st')
    ∧ truthy user = true
    ∧ get_prop user "name" = Ok DUndefined
    ∧ get_prop user "email" = Ok DUndefined
    ∧ get_prop user "id"
      = Ok (match i with MongoDatabase _ => DUndefined | _ => DString id end)
    ∧ get_prop user "_id"
      = Ok (match i with MongoDatabase _ => DString id | _ => DUndefined end).
Proof.
  intros Hthis Hdb Hi.
  unfold UserService_getUser, UserService_database. db_methods.
  destruct i; try discriminate Hi; run;
    do 2 eexists; (split; [reflexivity |]);
    unfold get_prop; cbn [truthy];
    rewrite ?lookup_insert_eq;
    repeat (rewrite lookup_insert_ne by discriminate);
    rewrite ?lookup_singleton_eq;
    repeat (rewrite lookup_singleton_ne by discriminate);
    repeat split; reflexivity.
Qed.

Lemma getUser_returns_a_stub_witness :
  ∃ (user : Data) (st' : State),
    UserService_getUser 2%positive "42"
      (mkState {[ 1%positive := MongoDatabase DUndefined;
                  2%positive := UserService 1%positive ]} [] 0 0)
    = (Ok user, st')
    ∧ truthy user = true
    ∧ get_prop user "name" = Ok DUndefined
    ∧ get_prop user "email" = Ok DUndefined
    ∧ get_prop user "id" = Ok DUndefined
    ∧ get_prop user "_id" = Ok (DString "42").
Proof.
  exact (getUser_returns_a_stub 2%positive 1%positive (MongoDatabase DUndefined) "42"
           (mkState {[ 1%positive := MongoDatabase DUndefined;
                       2%positive := UserService 1%positive ]} [] 0 0)
           eq_refl eq_refl eq_refl).
Defined.

(** X10.  [createUser] gives back what it was given, stamped: the object
    it returns has every property of [userData] other than [createdAt] and
    [id] unchanged, its [createdAt] is the date read during the call and
    its [id] is the string drawn by the database's [save]; a [createdAt]
    or [id] supplied by the caller is overwritten.  The object handed to
    [save] (and written to the console by it) is [userData] with the new
    [createdAt] and without the new [id]. *)
Theorem createUser_stamps_the_user `{Host} (this db : loc) (i : Instance)
    (userData : gmap string Data) (st : State) :
  heap st !! this = Some (UserService db) →
  heap st !! db = Some i →
  is_Database i = true →
  ∃ (fields : gmap string Data) (st' : State),
    UserService_createUser this userData st = (Ok (DObject fields), st')
    ∧ fields !! "id" = Some (DString (random36 (random_calls st)))
    ∧ fields !! "createdAt" = Some (DDate (clock (date_calls st)))
    ∧ (∀ k : string, k ≠ "id" → k ≠ "createdAt" → fields !! k = userData !! k)
    ∧ random_calls st' = S (random_calls st)
    ∧ date_calls st' = S (date_calls st)
    ∧ ∃ line : string,
        (LevelLog,
         [CString line;
          CData (DObject (<["createdAt" := DDate (clock (date_calls st))]> userData))])
        ∈ console st'.
Proof.
  intros Hthis Hdb Hi.
  unfold UserService_createUser, UserService_database. db_methods.
  destruct i; try discriminate Hi; run;
    do 2 eexists; (split; [reflexivity |]);
    (split; [apply lookup_insert_eq |]);
    (split; [rewrite lookup_insert_ne by discriminate; apply lookup_insert_eq |]);
    (split; [intros k Hk1 Hk2; by rewrite !lookup_insert_ne |]);
    (split; [reflexivity |]); (split; [reflexivity |]);
    eexists; cbn [console]; rewrite !elem_of_app, !list_elem_of_singleton; eauto 10.
Qed.

Lemma createUser_stamps_the_user_witness :
  ∃ (fields : gmap string Data) (st' : State),
    @UserService_createUser example_Host 2%positive
      {[ "name" := DString "John Doe"; "email" := DString "john@example.com" ]}
      (mkState {[ 1%positive := MySQLDatabase DUndefined;
                  2%positive := UserService 1%positive ]} [] 0 0)
    = (Ok (DObject fields), st')
    ∧ fields !! "id" = Some (DString (@random36 example_Host 0))
    ∧ fields !! "createdAt" = Some (DDate (@clock example_Host 0))
    ∧ (∀ k : string, k ≠ "id" → k ≠ "createdAt" →
       fields !! k
       = ({[ "name" := DString "John Doe"; "email" := DString "john@example.com" ]}
            : gmap string Data) !! k)
    ∧ random_calls st' = 1
    ∧ date_calls st' = 1
    ∧ ∃ line : string,
        (LevelLog,
         [CString line;
          CData (DObject (<["createdAt" := DDate (@clock example_Host 0)]>
                            {[ "name" := DString "John Doe";
                               "email" := DString "john@example.com" ]}))])
        ∈ console st'.
Proof.
  exact (@createUser_stamps_the_user example_Host 2%positive 1%positive
           (MySQLDatabase DUndefined)
           {[ "name" := DString "John Doe"; "email" := DString "john@example.com" ]}
           (mkState {[ 1%positive := MySQLDatabase DUndefined;
                       2%positive := UserService 1%positive ]} [] 0 0)
           eq_refl eq_refl eq_refl).
Defined.

(** ** The payment processors *)

Ltac pay_methods :=
  unfold PaymentProcessor_processPayment, PaymentProcessor_refundPayment,
    StripePaymentProcessor_processPayment, StripePaymentProcessor_refundPayment,
    PayPalPaymentProcessor_processPayment, PayPalPaymentProcessor_refundPayment,
    MockPaymentProcessor_processPayment, MockPaymentProcessor_refundPayment.

Lemma processPayment_mock `{Host} (p : loc) (ts : list PaymentResult)
    (rs : list RefundResult) (amount : spec_float) (currency cardToken : string)
    (st : State) :
  heap st !! p = Some (MockPaymentProcessor ts rs) →
  PaymentProcessor_processPayment p (DNumber amount) currency cardToken st
  = (Ok (mkPaymentResult true ("mock_" +:+ random36 (random_calls st))
           "Mock payment processed"),
     mkState
       (<[p := MockPaymentProcessor
                 (ts ++ [mkPaymentResult true ("mock_" +:+ random36 (random_calls st))
                           "Mock payment processed"]) rs]> (heap st))
       (console st
        ++ [(LevelLog, [CString ("Mock: Processing $" +:+ Number_toString amount +:+ " "
                                 +:+ currency +:+ " payment")])])
       (S (random_calls st)) (date_calls st)).
Proof.
  intros Hp. pay_methods. cbn [ToString]. run. reflexivity.
Qed.

Lemma pay_all_mock `{Host} (p : loc) (payments : list (spec_float * string * string))
    (ts : list PaymentResult) (rs : list RefundResult) (st : State) :
  heap st !! p = Some (MockPaymentProcessor ts rs) →
  ∃ st' : State,
    pay_all p payments st
    = (Ok (map (λ k, mkPaymentResult true ("mock_" +:+ random36 (random_calls st + k))
                       "Mock payment processed")
             (seq 0 (length payments))), st')
    ∧ heap st'
      = <[p := MockPaymentProcessor
                 (ts ++ map (λ k, mkPaymentResult true
                                    ("mock_" +:+ random36 (random_calls st + k))
                                    "Mock payment processed")
                          (seq 0 (length payments))) rs]> (heap st).
Proof.
  revert ts st. induction payments as [| [[amount currency] cardToken] payments IH];
    intros ts st Hp.
  - exists st. split; [reflexivity |]. simpl. rewrite app_nil_r. by rewrite insert_id.
  - cbn [pay_all]. rewrite Async_bind_eq, (processPayment_mock p ts rs _ _ _ st Hp).
    rewrite Async_bind_eq.
    match goal with
    | |- context [pay_all p payments ?s1] =>
        destruct (IH (ts ++ [mkPaymentResult true ("mock_" +:+ random36 (random_calls st))
                               "Mock payment processed"]) s1)
          as (st' & Hrun & Hheap); [simpl; apply lookup_insert_eq |]
    end.
    exists st'. rewrite Hrun, Hheap. cbn [random_calls heap length seq map].
    rewrite Nat.add_0_r, insert_insert_eq, <- app_assoc, <- seq_shift, map_map.
    cbn [app]. split.
    + unfold mret, Async_ret. do 3 f_equal.
      apply map_ext. intros k. by rewrite Nat.add_succ_comm.
    + do 4 f_equal. apply map_ext. intros k. by rewrite Nat.add_succ_comm.
Qed.

(** X11.  The mock payment processor records exactly the results it hands
    out.  After a list of payments is made on a mock that holds
    [transactions] and [refunds], every result reports success,
    [getTransactions] answers [transactions] followed by those results in
    order, [getRefunds] is unchanged, and the k-th result's [transactionId]
    is ["mock_"] followed by the string of the k-th draw of [Math.random]
    made since the start. *)
Theorem mock_payments_are_recorded `{Host} (p : loc)
    (payments : list (spec_float * string * string))
    (ts : list PaymentResult) (rs : list RefundResult) (st : State) :
  heap st !! p = Some (MockPaymentProcessor ts rs) →
  ∃ (results : list PaymentResult) (st' : State),
    (results ← pay_all p payments;
     recorded ← MockPaymentProcessor_getTransactions p;
     refunds ← MockPaymentProcessor_getRefunds p;
     mret (results, recorded, refunds)) st
    = (Ok (results, ts ++ results, rs), st')
    ∧ Forall (λ r, payment_success r = true) results
    ∧ map transactionId results
      = map (λ k, "mock_" +:+ random36 (random_calls st + k)) (seq 0 (length payments)).
Proof.
  intros Hp. destruct (pay_all_mock p payments ts rs st Hp) as (st' & Hrun & Hheap).
  set (results0 := map _ _) in Hrun, Hheap.
  exists results0, st'. split; [| split].
  - rewrite Async_bind_eq, Hrun.
    unfold MockPaymentProcessor_getTransactions, MockPaymentProcessor_getRefunds.
    assert (Hp' : heap st' !! p = Some (MockPaymentProcessor (ts ++ results0) rs))
      by (rewrite Hheap; apply lookup_insert_eq).
    run. reflexivity.
  - subst results0. apply Forall_map, Forall_forall. reflexivity.
  - subst results0. rewrite map_map. reflexivity.
Qed.

Lemma mock_payments_are_recorded_witness :
  ∃ (results : list PaymentResult) (st' : State),
    (results ← @pay_all example_Host 1%positive
                 [(S754_zero false, "USD", "tok-a"); (S754_nan, "EUR", "tok-b")];
     recorded ← MockPaymentProcessor_getTransactions 1%positive;
     refunds ← MockPaymentProcessor_getRefunds 1%positive;
     mret (results, recorded, refunds))
      (mkState {[ 1%positive := MockPaymentProcessor [] [] ]} [] 0 0)
    = (Ok (results, [] ++ results, []), st')
    ∧ Forall (λ r, payment_success r = true) results
    ∧ map transactionId results
      = map (λ k, "mock_" +:+ @random36 example_Host (0 + k)) (seq 0 2).
Proof.
  exact (@mock_payments_are_recorded example_Host 1%positive
           [(S754_zero false, "USD", "tok-a"); (S754_nan, "EUR", "tok-b")] [] []
           (mkState {[ 1%positive := MockPaymentProcessor [] [] ]} [] 0 0) eq_refl).
Defined.



(** ** The databases, one call at a time *)

Lemma is_Database_with_connection (i : Instance) (c : Data) :
  is_Database (with_connection i c) = is_Database i.
Proof. by destruct i. Qed.

Lemma with_connection_twice (i : Instance) (c c' : Data) :
  with_connection (with_connection i c) c' = with_connection i c'.
Proof. by destruct i. Qed.

Lemma Database_connect_run (d : loc) (di : Instance) (st : State) :
  heap st !! d = Some di → is_Database di = true →
  ∃ (line : string) (c : Data),
    Database_connect d st
    = (Ok tt, mkState (<[d := with_connection di c]> (heap st))
                (console st ++ [(LevelLog, [CString line])])
                (random_calls st) (date_calls st)).
Proof.
  intros Hd Hdi. db_methods.
  destruct di; try discriminate Hdi; run; do 2 eexists; reflexivity.
Qed.

Lemma Database_disconnect_run (d : loc) (di : Instance) (st : State) :
  heap st !! d = Some di → is_Database di = true →
  ∃ line : string,
    Database_disconnect d st
    = (Ok tt, mkState (<[d := with_connection di DNull]> (heap st))
                (console st ++ [(LevelLog, [CString line])])
                (random_calls st) (date_calls st)).
Proof.
  intros Hd Hdi. db_methods.
  destruct di; try discriminate Hdi; run; eexists; reflexivity.
Qed.

Lemma Database_findById_run (d : loc) (di : Instance) (collection : string) (id : Data)
    (st : State) :
  heap st !! d = Some di → is_Database di = true →
  ∃ line : string,
    Database_findById d collection id st
    = (Ok (found di collection id),
       mkState (heap st) (console st ++ [(LevelLog, [CString line; CData id])])
         (random_calls st) (date_calls st)).
Proof.
  intros Hd Hdi. db_methods.
  destruct di; try discriminate Hdi; run; eexists; reflexivity.
Qed.

Lemma Database_update_run (d : loc) (di : Instance) (collection id : string) (data : Data)
    (st : State) :
  heap st !! d = Some di → is_Database di = true →
  ∃ line : string,
    Database_update d collection id data st
    = (Ok tt,
       mkState (heap st) (console st ++ [(LevelLog, [CString line; CData data])])
         (random_calls st) (date_calls st)).
Proof.
  intros Hd Hdi. db_methods.
  destruct di; try discriminate Hdi; run; eexists; reflexivity.
Qed.

Lemma Database_save_run `{Host} (d : loc) (di : Instance) (collection : string)
    (data : Data) (st : State) :
  heap st !! d = Some di → is_Database di = true →
  ∃ line : string,
    Database_save d collection data st
    = (Ok (random36 (random_calls st)),
       mkState (heap st) (console st ++ [(LevelLog, [CString line; CData data])])
         (S (random_calls st)) (date_calls st)).
Proof.
  intros Hd Hdi. db_methods.
  destruct di; try discriminate Hdi; run; eexists; reflexivity.
Qed.

(** Finding the instance behind a reference in the state reached so far. *)
Ltac instance_here :=
  cbn [heap];
  repeat first
    [ rewrite lookup_insert_eq
    | rewrite lookup_insert_ne by congruence ];
  first [ eassumption | reflexivity ].

Ltac database_here := rewrite ?is_Database_with_connection; assumption.

(** One database call at the head of the run. *)
Ltac with_database d s k :=
  let Hi := fresh "Hi" in
  let Hb := fresh "Hb" in
  eassert (Hi : heap s !! d = Some _) by instance_here;
  match type of Hi with
  | _ = Some ?i =>
      assert (Hb : is_Database i = true) by database_here;
      k i Hi Hb
  end;
  clear Hi Hb.

Ltac database_call :=
  match goal with
  | |- context [Database_connect ?d ?s] =>
      with_database d s ltac:(fun i Hi Hb =>
        let E := fresh "E" in
        destruct (Database_connect_run d i s Hi Hb) as (? & ? & E);
        rewrite E; clear E)
  | |- context [Database_disconnect ?d ?s] =>
      with_database d s ltac:(fun i Hi Hb =>
        let E := fresh "E" in
        destruct (Database_disconnect_run d i s Hi Hb) as (? & E);
        rewrite E; clear E)
  | |- context [Database_findById ?d ?c ?x ?s] =>
      with_database d s ltac:(fun i Hi Hb =>
        let E := fresh "E" in
        destruct (Database_findById_run d i c x s Hi Hb) as (? & E);
        rewrite E; clear E)
  | |- context [Database_update ?d ?c ?x ?y ?s] =>
      with_database d s ltac:(fun i Hi Hb =>
        let E := fresh "E" in
        destruct (Database_update_run d i c x y s Hi Hb) as (? & E);
        rewrite E; clear E)
  | |- context [Database_save ?d ?c ?x ?s] =>
      with_database d s ltac:(fun i Hi Hb =>
        let E := fresh "E" in
        destruct (Database_save_run d i c x s Hi Hb) as (? & E);
        rewrite E; clear E)
  end.

(** ** OrderService *)

Ltac order_methods :=
  unfold OrderService_processOrderPayment, OrderService_refundOrder,
    OrderService_createOrder, OrderService_getUserById,
    OrderService_database, OrderService_paymentProcessor,
    OrderService_notificationService,
    NotificationService_sendOrderConfirmation,
    ExtendedNotificationService_sendOrderConfirmation,
    ExtendedNotificationService_sendEmail.

(** Reading the properties of an object literal. *)
Ltac data_lookup :=
  first
    [ rewrite lookup_insert_eq
    | rewrite lookup_insert_ne by discriminate
    | rewrite lookup_singleton_eq
    | rewrite lookup_singleton_ne by discriminate ].

Lemma found_truthy (i : Instance) (collection : string) (id : Data) :
  truthy (found i collection id) = true.
Proof. by destruct i. Qed.

Lemma found_has_no (i : Instance) (collection : string) (id : Data) (name : string) :
  name ≠ "id" → name ≠ "_id" → name ≠ "table" → name ≠ "collection" →
  get_prop (found i collection id) name = Ok DUndefined.
Proof.
  intros H1 H2 H3 H4.
  destruct i; unfold found, get_prop;
    rewrite lookup_insert_ne by done; by rewrite lookup_singleton_ne.
Qed.

Ltac run_order :=
  repeat first
    [ progress plumbing
    | heap_lookup
    | database_call
    | rewrite found_truthy
    | rewrite found_has_no by discriminate
    | progress (cbn [get_prop truthy ToString Array_map default])
    | data_lookup ].

(** X13.  With the classes of this file, paying for an order always takes
    the payment and then reports failure.  Whatever database, payment
    processor and notification service the [OrderService] is wired to, and
    whatever the order id and card token, [processOrderPayment] makes the
    payment (one draw of [Math.random] for the transaction id; a mock
    processor has recorded the transaction), tells the database the order
    is ["paid"], and then returns [false]: the confirmation throws a
    [TypeError], which the [catch] reports on the console as "Payment
    processing failed:". *)
Theorem processOrderPayment_charges_then_fails `{Host} (this d p n : loc)
    (di pi ni : Instance) (orderId cardToken : string) (st : State) :
  heap st !! this = Some (OrderService d p n) →
  heap st !! d = Some di → is_Database di = true →
  heap st !! p = Some pi → is_PaymentProcessor pi = true →
  heap st !! n = Some ni → is_NotificationService ni = true →
  ∃ st' : State,
    OrderService_processOrderPayment this orderId cardToken st = (Ok false, st')
    ∧ random_calls st' = S (random_calls st)
    ∧ last (console st')
      = Some (LevelError, [CString "Payment processing failed:"; CException TypeError])
    ∧ (∃ line tid : string,
         (LevelLog,
          [CString line;
           CData (DObject {[ "status" := DString "paid";
                             "transactionId" := DString tid ]})]) ∈ console st')
    ∧ ∀ ts rs, pi = MockPaymentProcessor ts rs →
        heap st' !! p
        = Some (MockPaymentProcessor
                  (ts ++ [mkPaymentResult true ("mock_" +:+ random36 (random_calls st))
                            "Mock payment processed"]) rs).
Proof.
  intros Hthis Hd Hdi Hp Hpi Hn Hni.
  assert (Hdt : d ≠ this) by (intros ->; rewrite Hthis in Hd; by injection Hd as <-).
  assert (Hdp : d ≠ p)
    by (intros ->; rewrite Hp in Hd; injection Hd as <-; by destruct pi).
  assert (Hdn : d ≠ n)
    by (intros ->; rewrite Hn in Hd; injection Hd as <-; by destruct ni).
  order_methods. pay_methods.
  destruct pi; try discriminate Hpi;
    destruct ni; try discriminate Hni;
    run_order.
  all: (eexists; split; [reflexivity |]);
    cbn [heap console random_calls];
    (split; [reflexivity |]);
    (split; [by rewrite last_snoc |]);
    (split;
     [do 2 eexists; rewrite !elem_of_app, !list_elem_of_singleton; eauto 20 |]);
    intros ts rs Heq; try discriminate Heq; injection Heq as -> ->;
    instance_here.
Qed.

Lemma processOrderPayment_charges_then_fails_witness :
  ∃ st' : State,
    @OrderService_processOrderPayment example_Host 4%positive "order_1" "test-card-token"
      (mkState {[ 1%positive := MongoDatabase DUndefined;
                  2%positive := MockPaymentProcessor [] [];
                  3%positive := ExtendedNotificationService 5%positive;
                  4%positive := OrderService 1%positive 2%positive 3%positive;
                  5%positive := MockEmailService [] ]} [] 0 0)
    = (Ok false, st')
    ∧ random_calls st' = 1
    ∧ last (console st')
      = Some (LevelError, [CString "Payment processing failed:"; CException TypeError])
    ∧ (∃ line tid : string,
         (LevelLog,
          [CString line;
           CData (DObject {[ "status" := DString "paid";
                             "transactionId" := DString tid ]})]) ∈ console st')
    ∧ ∀ ts rs, MockPaymentProcessor [] [] = MockPaymentProcessor ts rs →
        heap st' !! 2%positive
        = Some (MockPaymentProcessor
                  (ts ++ [mkPaymentResult true ("mock_" +:+ @random36 example_Host 0)
                            "Mock payment processed"]) rs).
Proof.
  exact (@processOrderPayment_charges_then_fails example_Host
           4%positive 1%positive 2%positive 3%positive
           (MongoDatabase DUndefined) (MockPaymentProcessor [] [])
           (ExtendedNotificationService 5%positive) "order_1" "test-card-token"
           (mkState {[ 1%positive := MongoDatabase DUndefined;
                       2%positive := MockPaymentProcessor [] [];
                       3%positive := ExtendedNotificationService 5%positive;
                       4%positive := OrderService 1%positive 2%positive 3%positive;
                       5%positive := MockEmailService [] ]} [] 0 0)
           eq_refl eq_refl eq_refl eq_refl eq_refl eq_refl eq_refl).
Defined.

(** X14.  With the classes of this file a refund always goes through:
    whatever database and payment processor the [OrderService] is wired
    to, [refundOrder] returns [true], has told the database the order is
    ["cancelled"], has drawn one refund id, leaves the database
    disconnected, and a mock processor has recorded the refund (its
    transactions are untouched). *)
Theorem refundOrder_succeeds `{Host} (this d p n : loc) (di pi : Instance)
    (orderId transaction : string) (st : State) :
  heap st !! this = Some (OrderService d p n) →
  heap st !! d = Some di → is_Database di = true →
  heap st !! p = Some pi → is_PaymentProcessor pi = true →
  ∃ st' : State,
    OrderService_refundOrder this orderId transaction st = (Ok true, st')
    ∧ random_calls st' = S (random_calls st)
    ∧ heap st' !! d = Some (with_connection di DNull)
    ∧ (∃ line rid : string,
         (LevelLog,
          [CString line;
           CData (DObject {[ "status" := DString "cancelled";
                             "refundId" := DString rid ]})]) ∈ console st')
    ∧ ∀ ts rs, pi = MockPaymentProcessor ts rs →
        heap st' !! p
        = Some (MockPaymentProcessor ts
                  (rs ++ [mkRefundResult true
                            ("mock_refund_" +:+ random36 (random_calls st))
                            "Mock refund processed"])).
Proof.
  intros Hthis Hd Hdi Hp Hpi.
  assert (Hdt : d ≠ this) by (intros ->; rewrite Hthis in Hd; by injection Hd as <-).
  assert (Hdp : d ≠ p)
    by (intros ->; rewrite Hp in Hd; injection Hd as <-; by destruct pi).
  order_methods. pay_methods.
  destruct pi; try discriminate Hpi; run_order.
  all: (eexists; split; [reflexivity |]);
    cbn [heap console random_calls];
    (split; [reflexivity |]);
    (split; [rewrite lookup_insert_eq; by rewrite ?with_connection_twice |]);
    (split;
     [do 2 eexists; rewrite !elem_of_app, !list_elem_of_singleton; eauto 20 |]);
    intros ts rs Heq; try discriminate Heq; injection Heq as -> ->;
    instance_here.
Qed.

Lemma refundOrder_succeeds_witness :
  ∃ st' : State,
    @OrderService_refundOrder example_Host 4%positive "order_1" "mock_0.4fzyo82mvyr"
      (mkState {[ 1%positive := PostgreSQLDatabase DUndefined;
                  2%positive := MockPaymentProcessor [] [];
                  4%positive := OrderService 1%positive 2%positive 3%positive ]} [] 0 0)
    = (Ok true, st')
    ∧ random_calls st' = 1
    ∧ heap st' !! 1%positive = Some (with_connection (PostgreSQLDatabase DUndefined) DNull)
    ∧ (∃ line rid : string,
         (LevelLog,
          [CString line;
           CData (DObject {[ "status" := DString "cancelled";
                             "refundId" := DString rid ]})]) ∈ console st')
    ∧ ∀ ts rs, MockPaymentProcessor [] [] = MockPaymentProcessor ts rs →
        heap st' !! 2%positive
        = Some (MockPaymentProcessor ts
                  (rs ++ [mkRefundResult true
                            ("mock_refund_" +:+ @random36 example_Host 0)
                            "Mock refund processed"])).
Proof.
  exact (@refundOrder_succeeds example_Host 4%positive 1%positive 2%positive 3%positive
           (PostgreSQLDatabase DUndefined) (MockPaymentProcessor [] [])
           "order_1" "mock_0.4fzyo82mvyr"
           (mkState {[ 1%positive := PostgreSQLDatabase DUndefined;
                       2%positive := MockPaymentProcessor [] [];
                       4%positive := OrderService 1%positive 2%positive 3%positive ]}
              [] 0 0)
           eq_refl eq_refl eq_refl eq_refl eq_refl).
Defined.

(** ** What a call guarantees *)

Section Post.

Context {A B : Type}.
Implicit Types (m : Async A) (f : A → Async B) (st : State).

Lemma post_bind m f st (P : A → State → Prop) (Q : B → State → Prop)
    (E : Exception → State → Prop) :
  post m st P E →
  (∀ a st1, P a st1 → post (f a) st1 Q E) →
  post (m ≫= f) st Q E.
Proof.
  unfold post. rewrite Async_bind_eq.
  destruct (m st) as [[a | x] st1]; [intros HP Hf; by apply Hf | done].
Qed.

Lemma post_weaken m st (P P' : A → State → Prop) (E E' : Exception → State → Prop) :
  post m st P E →
  (∀ a st1, P a st1 → P' a st1) →
  (∀ x st1, E x st1 → E' x st1) →
  post m st P' E'.
Proof. unfold post. destruct (m st) as [[a | x] st1]; auto. Qed.

Lemma post_anything m st : post m st anything anything.
Proof. unfold post. by destruct (m st) as [[a | x] st1]. Qed.

Lemma post_try_catch m (h : Exception → Async A) st (Q : A → State → Prop)
    (E : Exception → State → Prop) :
  post m st Q (λ x st1, post (h x) st1 Q E) →
  post (try_catch m h) st Q E.
Proof. unfold post, try_catch. by destruct (m st) as [[a | x] st1]. Qed.

End Post.

Lemma post_mret {A : Type} (a : A) (st : State) (Q : A → State → Prop)
    (E : Exception → State → Prop) :
  Q a st → post (mret a) st Q E.
Proof. done. Qed.

(** Calls that can only throw a [TypeError]. *)
Lemma OrderService_database_post (this : loc) (st : State) :
  post (OrderService_database this) st anything is_TypeError.
Proof.
  unfold post, OrderService_database. plumbing.
  by destruct (heap st !! this) as [[] |].
Qed.

Lemma Database_connect_post (d : loc) (st : State) :
  post (Database_connect d) st anything is_TypeError.
Proof.
  unfold post. db_methods. plumbing.
  by destruct (heap st !! d) as [[] |].
Qed.

Lemma Database_disconnect_post (d : loc) (st : State) :
  post (Database_disconnect d) st anything is_TypeError.
Proof.
  unfold post. db_methods. plumbing.
  by destruct (heap st !! d) as [[] |].
Qed.

(** Whatever a database finds is an object without [items]. *)
Lemma Database_findById_post (d : loc) (collection : string) (id : Data) (st : State) :
  post (Database_findById d collection id) st
    (λ order _, truthy order = true ∧ get_prop order "items" = Ok DUndefined)
    is_TypeError.
Proof.
  unfold post. db_methods. plumbing.
  destruct (heap st !! d) as [[] |]; try done; plumbing;
    unfold get_prop; cbn [truthy];
    rewrite lookup_insert_ne by discriminate;
    by rewrite lookup_singleton_ne.
Qed.

(** A confirmation for an order without [items] always throws. *)
Lemma sendOrderConfirmation_post `{Host} (n : loc) (user order : Data) (st : State) :
  get_prop order "items" = Ok DUndefined →
  post (NotificationService_sendOrderConfirmation n user order) st
    (λ _ _, False) anything.
Proof.
  intros Hitems. unfold post. order_methods. rewrite Hitems.
  plumbing. cbn [Array_map].
  by destruct (heap st !! n) as [[] |].
Qed.

Ltac post_call spec :=
  eapply post_bind;
  [ eapply post_weaken;
    [ apply spec
    | intros ? ? HQ; exact HQ
    | intros ? ? HE; first [exact HE | exact I] ]
  | cbv beta; intros ? ? ? ].

Lemma getUserById_post (this : loc) (userId : Data) (st : State) :
  post (OrderService_getUserById this userId) st
    (λ user _, truthy user = true) anything.
Proof.
  unfold OrderService_getUserById.
  post_call OrderService_database_post.
  post_call Database_connect_post.
  post_call OrderService_database_post.
  post_call Database_findById_post.
  post_call OrderService_database_post.
  post_call Database_disconnect_post.
  apply post_mret. tauto.
Qed.

Lemma processOrderPayment_post `{Host} (this : loc) (orderId cardToken : string)
    (st : State) :
  post (OrderService_processOrderPayment this orderId cardToken) st
    (λ b _, b = false) is_TypeError.
Proof.
  unfold OrderService_processOrderPayment.
  post_call OrderService_database_post.
  post_call Database_connect_post.
  post_call OrderService_database_post.
  post_call Database_findById_post.
  post_call OrderService_database_post.
  post_call Database_disconnect_post.
  match goal with Ho : truthy _ = true ∧ _ |- _ => destruct Ho as [Htruthy Hitems] end.
  rewrite Htruthy. cbn [negb].
  apply post_try_catch.
  eapply post_weaken with (P := λ b _, b = false) (E := anything);
    [| auto | intros ? ? _; unfold post; plumbing; reflexivity].
  post_call (@post_anything loc).
  post_call (@post_anything Data).
  post_call (@post_anything PaymentResult).
  match goal with |- context [payment_success ?r] => destruct (payment_success r) end;
    [| by apply post_mret].
  post_call (@post_anything loc).
  post_call (@post_anything unit).
  post_call (@post_anything loc).
  post_call (@post_anything unit).
  post_call (@post_anything loc).
  post_call (@post_anything unit).
  post_call (@post_anything Data).
  post_call getUserById_post.
  match goal with Hu : truthy _ = true |- _ => rewrite Hu end.
  eapply post_bind with (P := λ _ _, False); [| by intros].
  post_call (@post_anything loc).
  by apply sendOrderConfirmation_post.
Qed.

(** X15.  [processOrderPayment] never reports success and never reports a
    missing order.  However the [OrderService] is wired and whatever is in
    the heap, the call either returns [false] or throws a [TypeError]: it
    never returns [true], and the branch that throws "Order not found" is
    never taken, because what a database of this file finds is always an
    object (truthy) that has no [items]. *)
Theorem processOrderPayment_never_succeeds `{Host} (this : loc)
    (orderId cardToken : string) (st : State) :
  fst (OrderService_processOrderPayment this orderId cardToken st) = Ok false
  ∨ fst (OrderService_processOrderPayment this orderId cardToken st) = Raise TypeError.
Proof.
  pose proof (processOrderPayment_post this orderId cardToken st) as Hpost.
  unfold post, is_TypeError in Hpost.
  destruct (OrderService_processOrderPayment this orderId cardToken st)
    as [[b | x] st']; simpl; [left | right]; by rewrite Hpost.
Qed.

Lemma OrderService_database_draws_nothing (this : loc) :
  draws_nothing (OrderService_database this).
Proof.
  intros st. unfold post, OrderService_database. plumbing.
  by destruct (heap st !! this) as [[] |].
Qed.

Lemma Database_connect_draws_nothing (d : loc) : draws_nothing (Database_connect d).
Proof.
  intros st. unfold post. db_methods. plumbing.
  by destruct (heap st !! d) as [[] |].
Qed.

Lemma Database_disconnect_draws_nothing (d : loc) : draws_nothing (Database_disconnect d).
Proof.
  intros st. unfold post. db_methods. plumbing.
  by destruct (heap st !! d) as [[] |].
Qed.

Lemma Database_findById_draws_nothing (d : loc) (collection : string) (id : Data) :
  draws_nothing (Database_findById d collection id).
Proof.
  intros st. unfold post. db_methods. plumbing.
  by destruct (heap st !! d) as [[] |].
Qed.

Ltac quiet_call spec st0 :=
  eapply post_bind with (P := λ _ st', random_calls st' = random_calls st0);
  [ eapply post_weaken;
    [ apply spec
    | cbv beta; intros; congruence
    | cbv beta; intros; congruence ]
  | cbv beta; intros ? ? ? ].

Lemma processOrderPayment_throws_before_paying `{Host} (this : loc)
    (orderId cardToken : string) (st : State) :
  post (OrderService_processOrderPayment this orderId cardToken) st
    anything (λ _ st', random_calls st' = random_calls st).
Proof.
  unfold OrderService_processOrderPayment.
  quiet_call OrderService_database_draws_nothing st.
  quiet_call Database_connect_draws_nothing st.
  quiet_call OrderService_database_draws_nothing st.
  quiet_call Database_findById_draws_nothing st.
  quiet_call OrderService_database_draws_nothing st.
  quiet_call Database_disconnect_draws_nothing st.
  match goal with |- context [truthy ?o] => destruct (truthy o) end; cbn [negb].
  - apply post_try_catch.
    eapply post_weaken; [apply post_anything | done |].
    intros ? ? _. unfold post. plumbing. done.
  - unfold post, raise. assumption.
Qed.

(** X22.  When [processOrderPayment] throws, nothing has been paid: a
    throw can only come from the database calls that precede the payment,
    so no random string (no transaction id) has been drawn by then. *)
Theorem processOrderPayment_throws_only_before_paying `{Host} (this : loc)
    (orderId cardToken : string) (st st' : State) (x : Exception) :
  OrderService_processOrderPayment this orderId cardToken st = (Raise x, st') →
  x = TypeError ∧ random_calls st' = random_calls st.
Proof.
  intros Hrun.
  pose proof (processOrderPayment_throws_before_paying this orderId cardToken st) as H1.
  pose proof (processOrderPayment_post this orderId cardToken st) as H2.
  unfold post in H1, H2. rewrite Hrun in H1, H2. by split.
Qed.

Lemma processOrderPayment_throws_only_before_paying_witness :
  TypeError = TypeError
  ∧ random_calls (mkState {[ 4%positive := OrderService 1%positive 2%positive 3%positive ]}
                    [] 5 0)
    = random_calls (mkState {[ 4%positive := OrderService 1%positive 2%positive 3%positive ]}
                      [] 5 0).
Proof.
  apply (@processOrderPayment_throws_only_before_paying example_Host 4%positive
           "order_1" "tok"
           (mkState {[ 4%positive := OrderService 1%positive 2%positive 3%positive ]} [] 5 0)
           (mkState {[ 4%positive := OrderService 1%positive 2%positive 3%positive ]} [] 5 0)
           TypeError).
  vm_compute. reflexivity.
Defined.

(** X16.  [refundOrder] never throws, and says so on the console when
    it fails.  In every state the call returns: [true] exactly when the
    receiver is an [OrderService] wired to a payment processor and a
    database of this file; otherwise the failure (a [TypeError]) is caught,
    written to the console as "Refund processing failed:" (the last line
    of the console after the call) and turned into the answer [false]. *)
Theorem refundOrder_never_throws `{Host} (this : loc) (orderId transaction : string)
    (st : State) :
  ∃ st' : State,
    OrderService_refundOrder this orderId transaction st
    = (Ok (wired_for_refund this st), st')
    ∧ (wired_for_refund this st = false →
       last (console st')
       = Some (LevelError, [CString "Refund processing failed:"; CException TypeError])).
Proof.
  unfold wired_for_refund. order_methods. pay_methods. db_methods.
  assert (Hlast : ∀ (cs : list (ConsoleLevel * list ConsoleArg)) e, last (cs ++ [e]) = Some e)
    by (intros; apply last_snoc).
  destruct (heap st !! this) as [[| | | | | | | | | | | | | d p n] |] eqn:Hthis;
    try (run; eexists; split; [reflexivity | intros _; apply Hlast]).
  destruct (decide (d = p)) as [-> | Hdp].
  - destruct (heap st !! p) as [[] |] eqn:Hp;
      run; cbn [is_PaymentProcessor is_Database andb];
      eexists; (split; [reflexivity | intros _; apply Hlast]).
  - destruct (heap st !! p) as [[] |] eqn:Hp;
      cbn [is_PaymentProcessor andb];
      try (run; destruct (heap st !! d) as [? |];
           eexists; (split; [reflexivity | intros _; apply Hlast])).
    all: destruct (heap st !! d) as [[] |] eqn:Hd;
      run; cbn [is_Database];
      eexists; (split; [reflexivity | first [intros _; apply Hlast | discriminate]]).
Qed.

Lemma refundOrder_never_throws_witness :
  ∃ st' : State,
    @OrderService_refundOrder example_Host 4%positive "order_1" "tx"
      (mkState {[ 1%positive := SMTPEmailService;
                  2%positive := StripePaymentProcessor;
                  4%positive := OrderService 1%positive 2%positive 3%positive ]} [] 0 0)
    = (Ok false, st')
    ∧ last (console st')
      = Some (LevelError, [CString "Refund processing failed:"; CException TypeError]).
Proof.
  destruct (@refundOrder_never_throws example_Host 4%positive "order_1" "tx"
              (mkState {[ 1%positive := SMTPEmailService;
                          2%positive := StripePaymentProcessor;
                          4%positive := OrderService 1%positive 2%positive 3%positive ]}
                 [] 0 0)) as (st' & Hrun & Hlast).
  exists st'. split; [exact Hrun | apply Hlast; reflexivity].
Defined.

(** X17.  [createOrder] keeps its own id.  With any database of this file
    behind the service, the order it returns has the id ["order_"]
    followed by the first string drawn, the given [userId] and [items],
    their total and the status ["pending"]; it is the very object handed
    to [save].  The id that [save] generates (the second draw) is dropped,
    and the database is left disconnected. *)
Theorem createOrder_keeps_its_own_id `{Host} (this d p n : loc) (di : Instance)
    (userId : string) (items : list Item) (st : State) :
  heap st !! this = Some (OrderService d p n) →
  heap st !! d = Some di → is_Database di = true →
  ∃ (order : Data) (st' : State),
    OrderService_createOrder this userId items st = (Ok order, st')
    ∧ order = DObject {[ "id" := DString ("order_" +:+ random36 (random_calls st));
                         "userId" := DString userId;
                         "items" := DArray (map Item_object items);
                         "total" := DNumber (items_total items);
                         "status" := DString "pending" ]}
    ∧ random_calls st' = S (S (random_calls st))
    ∧ heap st' = <[d := with_connection di DNull]> (heap st)
    ∧ ∃ line : string, (LevelLog, [CString line; CData order]) ∈ console st'.
Proof.
  intros Hthis Hd Hdi.
  assert (Hdt : d ≠ this) by (intros ->; rewrite Hthis in Hd; by injection Hd as <-).
  order_methods. run_order.
  do 2 eexists. split; [reflexivity |]. split; [reflexivity |].
  cbn [heap console random_calls].
  split; [reflexivity |].
  split; [by rewrite insert_insert_eq, with_connection_twice |].
  eexists. rewrite !elem_of_app, !list_elem_of_singleton. eauto 10.
Qed.

Lemma createOrder_keeps_its_own_id_witness :
  ∃ (order : Data) (st' : State),
    @OrderService_createOrder example_Host 4%positive "user123"
      [mkItem "Widget A" S754_nan]
      (mkState {[ 1%positive := MongoDatabase DUndefined;
                  4%positive := OrderService 1%positive 2%positive 3%positive ]} [] 0 0)
    = (Ok order, st')
    ∧ order = DObject {[ "id" := DString ("order_" +:+ @random36 example_Host 0);
                         "userId" := DString "user123";
                         "items" := DArray (map Item_object [mkItem "Widget A" S754_nan]);
                         "total" := DNumber (items_total [mkItem "Widget A" S754_nan]);
                         "status" := DString "pending" ]}
    ∧ random_calls st' = 2
    ∧ heap st' = <[1%positive := with_connection (MongoDatabase DUndefined) DNull]>
                   {[ 1%positive := MongoDatabase DUndefined;
                      4%positive := OrderService 1%positive 2%positive 3%positive ]}
    ∧ ∃ line : string, (LevelLog, [CString line; CData order]) ∈ console st'.
Proof.
  exact (@createOrder_keeps_its_own_id example_Host
           4%positive 1%positive 2%positive 3%positive
           (MongoDatabase DUndefined) "user123" [mkItem "Widget A" S754_nan]
           (mkState {[ 1%positive := MongoDatabase DUndefined;
                       4%positive := OrderService 1%positive 2%positive 3%positive ]}
              [] 0 0)
           eq_refl eq_refl eq_refl).
Defined.

(** ** The total of an order *)

Lemma Number_add_nan_l (y : spec_float) : Number_add S754_nan y = S754_nan.
Proof. reflexivity. Qed.

Lemma Number_add_nan_r (x : spec_float) : Number_add x S754_nan = S754_nan.
Proof. by destruct x. Qed.

Lemma fold_total_nan (items : list Item) :
  fold_left (λ sum item, Number_add sum (item_price item)) items S754_nan = S754_nan.
Proof. induction items as [| i items IH]; [reflexivity | exact IH]. Qed.

Lemma fold_total_has_nan (items : list Item) (start : spec_float) :
  Exists (λ i, item_price i = S754_nan) items →
  fold_left (λ sum item, Number_add sum (item_price item)) items start = S754_nan.
Proof.
  intros Hex. revert start. induction Hex as [i items Hi | i items _ IH]; intros start.
  - cbn [fold_left]. rewrite Hi, Number_add_nan_r. apply fold_total_nan.
  - cbn [fold_left]. apply IH.
Qed.

(** X18.  The total of an order is not validated: for no items it is
    [+0], and as soon as one price is [NaN] the total is [NaN], whatever
    the other prices are. *)
Theorem total_of_no_items_and_of_nan :
  items_total [] = S754_zero false
  ∧ ∀ items : list Item,
      Exists (λ i, item_price i = S754_nan) items → items_total items = S754_nan.
Proof.
  split; [reflexivity |]. intros items Hex. by apply fold_total_has_nan.
Qed.

Lemma total_of_no_items_and_of_nan_witness :
  items_total [mkItem "Widget A" (S754_infinity false); mkItem "Widget B" S754_nan]
  = S754_nan.
Proof.
  apply (proj2 total_of_no_items_and_of_nan
           [mkItem "Widget A" (S754_infinity false); mkItem "Widget B" S754_nan]).
  apply Exists_cons_tl, Exists_cons_hd. reflexivity.
Defined.

(** ** More on the container *)

(** X19.  When [get] returns and when it throws, exactly: it returns [v]
    if and only if the key's entry is [v] and [v] is truthy; it throws if
    and only if the key has no entry or a falsy one, and what it throws is
    then the not-found error of that key. *)
Theorem get_returns_iff (k : string) (this : DIContainer) :
  (∀ v : Value,
     outcome (get k) this = Normal v
     ↔ services this !! k = Some v ∧ ToBoolean v = true)
  ∧ (∀ e : Error,
       outcome (get k) this = Throw e
       ↔ e = new_Error (not_found_message k)
         ∧ (services this !! k = None
            ∨ ∃ v : Value, services this !! k = Some v ∧ ToBoolean v = false)).
Proof.
  unfold outcome. rewrite get_eq. cbn [fst].
  destruct (services this !! k) as [w |] eqn:Hw; cbn [default from_option]; unfold id.
  - destruct (ToBoolean w) eqn:Hb; cbv beta iota; split; intros x; split; intros Hx.
    + injection Hx as <-. by split.
    + destruct Hx as [[= <-] _]. reflexivity.
    + discriminate.
    + destruct Hx as [_ [? | (v & [= <-] & Hv)]]; [discriminate | congruence].
    + discriminate.
    + destruct Hx as [[= <-] Hv]. congruence.
    + injection Hx as <-. split; [reflexivity |]. right. by exists w.
    + destruct Hx as [-> _]. reflexivity.
  - cbn [ToBoolean]. cbv beta iota. split; intros x; split; intros Hx.
    + discriminate.
    + destruct Hx as [? _]. discriminate.
    + injection Hx as <-. split; [reflexivity | by left].
    + destruct Hx as [-> _]. reflexivity.
Qed.

Lemma get_returns_iff_witness :
  services (after (register "db" (VObject 1%positive)) new_DIContainer) !! "db"
  = Some (VObject 1%positive)
  ∧ ToBoolean (VObject 1%positive) = true.
Proof.
  apply (proj1 (proj1 (get_returns_iff "db"
                         (after (register "db" (VObject 1%positive)) new_DIContainer))
                  (VObject 1%positive))).
  vm_compute. reflexivity.
Defined.

Lemma order_independence_witness :
  ∃ answer : string → Completion Value,
    outcome (register_all [("db", VObject 1%positive); ("cache", VBoolean false)];;
             query_all ["db"; "cache"]) new_DIContainer
    = Normal (map (λ k, (k, answer k)) ["db"; "cache"])
    ∧ outcome (register_all [("cache", VBoolean false); ("db", VObject 1%positive)];;
               query_all ["cache"; "db"]) new_DIContainer
      = Normal (map (λ k, (k, answer k)) ["cache"; "db"])
    ∧ ∀ k v, (k, v) ∈ [("db", VObject 1%positive); ("cache", VBoolean false)] →
        answer k = if ToBoolean v then Normal v
                   else Throw (new_Error (not_found_message k)).
Proof.
  apply (order_independence
           [("db", VObject 1%positive); ("cache", VBoolean false)]
           [("cache", VBoolean false); ("db", VObject 1%positive)]
           ["db"; "cache"] ["cache"; "db"] new_DIContainer).
  - cbn [fmap list_fmap fst]. apply NoDup_cons. split.
    + apply not_elem_of_cons. split; [discriminate | apply not_elem_of_nil].
    + apply NoDup_singleton.
  - apply perm_swap.
  - apply perm_swap.
Defined.

(** ** The demonstration *)

(** X21.  What the demonstration shows when it is run from a state with
    no instances: it runs to the end without throwing, draws eight random
    strings and reads the date three times, and its console output says
    that the payment of the order it has just created was not processed
    ("Payment processed: false"), that the mock email service has sent no
    email, and that the mock payment processor holds exactly one
    transaction, the one of that payment. *)
Theorem demonstration_outcome `{Host} (st : State) :
  heap st = ∅ →
  ∃ st' : State,
    demonstrateDIP st = (Ok tt, st')
    ∧ random_calls st' = 8 + random_calls st
    ∧ date_calls st' = 3 + date_calls st
    ∧ (LevelLog, [CString "Payment processed:"; CData (DBoolean false)]) ∈ console st'
    ∧ (LevelLog, [CString "Mock email sent emails:"; CData (DArray [])]) ∈ console st'
    ∧ last (console st')
      = Some (LevelLog,
              [CString "Mock payment transactions:";
               CData (DArray [PaymentResult_object
                                (mkPaymentResult true
                                   ("mock_" +:+ random36 (7 + random_calls st))
                                   "Mock payment processed")])]).
Proof.
  destruct st as [h cs rc dc]. cbn [heap random_calls date_calls]. intros ->.
  destruct (demonstrateDIP (mkState ∅ cs rc dc)) as [r st'] eqn:E.
  vm_compute in E. injection E as <- <-.
  eexists. split; [reflexivity |].
  cbn [console random_calls date_calls].
  split; [reflexivity |]. split; [reflexivity |].
  split; [| split].
  - repeat (apply elem_of_app;
            first [ right; apply list_elem_of_singleton; reflexivity | left ]).
  - repeat (apply elem_of_app;
            first [ right; apply list_elem_of_singleton; reflexivity | left ]).
  - etrans; [apply last_snoc |]. vm_compute. reflexivity.
Qed.

Lemma demonstration_outcome_witness :
  ∃ st' : State,
    @demonstrateDIP example_Host (mkState ∅ [] 0 0) = (Ok tt, st')
    ∧ random_calls st' = 8 + 0
    ∧ date_calls st' = 3 + 0
    ∧ (LevelLog, [CString "Payment processed:"; CData (DBoolean false)]) ∈ console st'
    ∧ (LevelLog, [CString "Mock email sent emails:"; CData (DArray [])]) ∈ console st'
    ∧ last (console st')
      = Some (LevelLog,
              [CString "Mock payment transactions:";
               CData (DArray [PaymentResult_object
                                (mkPaymentResult true
                                   ("mock_" +:+ @random36 example_Host (7 + 0))
                                   "Mock payment processed")])]).
Proof.
  exact (@demonstration_outcome example_Host (mkState ∅ [] 0 0) eq_refl).
Defined.
